(** * CA chatbot widget: a model of the client-side controller

    The development embeds the two browser widgets of the repository,
    [CAChatbotWidget] (ca-chatbot-widget.js) and [CAEmbedWidget]
    (ca-chatbot-embed.js), as pure functions over an explicit widget
    state, and proves the properties of the controller: admission
    control of [sendMessage], release of the loading flag, the shape of
    the transcript, the health probe and the rendering of sources.

    Conventions.
    - JavaScript values are the inductive [JSVal]: [undefined], [null],
      booleans, numbers, strings, arrays and objects, which is what
      [JSON.parse] produces.  A number is held by the text that
      [Number.prototype.toString] gives for it ([0], [-2.5], [1e+21],
      [NaN]): what the widgets do with a number is to test it for truth,
      to compare it with [===] and to print it, and this text decides
      all three.
    - Text is [string], the bytes of its UTF-8 form; a template literal
      is a concatenation, and [${e}] is [ToString e].  [trim] strips
      the white space of ECMAScript, one to three bytes a character.
    - An exception is the [Throw] branch of [Result].  A method that
      changes the widget runs in the monad [M] of state and exceptions,
      in which a thrown exception keeps the changes made before it, as
      [try], [catch] and [finally] see them.
    - An [async] method is cut at its [await]: the part that runs when
      the method is called, and the part that runs when the awaited
      promises have settled, which takes the outcome as an argument. *)

From Stdlib Require Import ZArith Ascii String List Bool Lia.
From stdpp Require Import base list strings pretty.
Import ListNotations.

Local Open Scope string_scope.
Local Open Scope list_scope.

(** ** Text *)

Definition chr (n : nat) : string := String (ascii_of_nat n) EmptyString.

(** The double quote, for markup attributes. *)
Definition dq : string := chr 34.

(** The line feed of a multi-line template literal. *)
Definition nl : string := chr 10.

(** An attribute value between double quotes. *)
Definition q (s : string) : string := dq +:+ s +:+ dq.

(** A glyph given by its bytes in the source file. *)
Definition glyph (codes : list nat) : string :=
  fold_right (fun c s => String (ascii_of_nat c) s) EmptyString codes.

(** The white space and line terminators that [String.prototype.trim]
    strips, in their UTF-8 form.  One byte: TAB, LF, VT, FF, CR, SP. *)
Definition is_space (c : ascii) : bool :=
  let n := nat_of_ascii c in
  (Nat.eqb n 9 || Nat.eqb n 10 || Nat.eqb n 11 || Nat.eqb n 12
   || Nat.eqb n 13 || Nat.eqb n 32)%bool.

Definition byte_is (c : ascii) (n : nat) : bool := Nat.eqb (nat_of_ascii c) n.

(** Two bytes: U+00A0, the no-break space, [C2 A0]. *)
Definition is_space2 (c1 c2 : ascii) : bool :=
  (byte_is c1 194 && byte_is c2 160)%bool.

(** Three bytes: U+1680 [E1 9A 80]; U+2000 to U+200A [E2 80 80] to
    [E2 80 8A]; the line and paragraph separators U+2028 [E2 80 A8] and
    U+2029 [E2 80 A9]; U+202F [E2 80 AF]; U+205F [E2 81 9F]; U+3000
    [E3 80 80]; U+FEFF [EF BB BF]. *)
Definition is_space3 (c1 c2 c3 : ascii) : bool :=
  let n3 := nat_of_ascii c3 in
  ((byte_is c1 225 && byte_is c2 154 && byte_is c3 128)
   || (byte_is c1 226 && byte_is c2 128
       && ((Nat.leb 128 n3 && Nat.leb n3 138)
           || Nat.eqb n3 168 || Nat.eqb n3 169 || Nat.eqb n3 175))
   || (byte_is c1 226 && byte_is c2 129 && byte_is c3 159)
   || (byte_is c1 227 && byte_is c2 128 && byte_is c3 128)
   || (byte_is c1 239 && byte_is c2 187 && byte_is c3 191))%bool.

(** The text after the white space character at the head of [s], when
    there is one. *)
Definition space_at (s : string) : option string :=
  match s with
  | EmptyString => None
  | String c1 s1 =>
      if is_space c1 then Some s1
      else match s1 with
           | EmptyString => None
           | String c2 s2 =>
               if is_space2 c1 c2 then Some s2
               else match s2 with
                    | EmptyString => None
                    | String c3 s3 =>
                        if is_space3 c1 c2 c3 then Some s3 else None
                    end
           end
  end.

Fixpoint trimStart (s : string) : string :=
  match s with
  | EmptyString => s
  | String c1 s1 =>
      if is_space c1 then trimStart s1
      else match s1 with
           | EmptyString => s
           | String c2 s2 =>
               if is_space2 c1 c2 then trimStart s2
               else match s2 with
                    | EmptyString => s
                    | String c3 s3 =>
                        if is_space3 c1 c2 c3 then trimStart s3 else s
                    end
           end
  end.

(** All the characters of a text are white space. *)
Fixpoint blank (s : string) : bool :=
  match s with
  | EmptyString => true
  | String c1 s1 =>
      if is_space c1 then blank s1
      else match s1 with
           | EmptyString => false
           | String c2 s2 =>
               if is_space2 c1 c2 then blank s2
               else match s2 with
                    | EmptyString => false
                    | String c3 s3 => is_space3 c1 c2 c3 && blank s3
                    end
           end
  end.

(** [trimEnd] drops the longest suffix that is white space: it keeps a
    byte as long as what starts there is not all white space. *)
Fixpoint trimEnd (s : string) : string :=
  match s with
  | EmptyString => EmptyString
  | String c s' => if blank s then EmptyString else String c (trimEnd s')
  end.

Definition trim (s : string) : string := trimEnd (trimStart s).

Definition is_empty (s : string) : bool :=
  match s with EmptyString => true | _ => false end.

(** ** JavaScript values *)

(** The text of a number is its shortest decimal form as JavaScript
    prints it.  Two numbers that print alike are the same number, but
    for [+0] and [-0], which both print [0], are identical to [===] and
    are both false as a condition; [NaN] is false as a condition and
    identical to no number. *)
#[warnings="-register-all"]
Inductive JSVal : Type :=
| VUndefined
| VNull
| VBool (b : bool)
| VNum (text : string)
| VStr (s : string)
| VArr (items : list JSVal)
| VObj (fields : list (string * JSVal)).

(** The exception of a failed statement; only its [message] is read. *)
Record Error : Type := mkError { message : string }.

Inductive Result (A : Type) : Type :=
| Ok (a : A)
| Throw (e : Error).
Arguments Ok {A} a.
Arguments Throw {A} e.

Definition bind {A B : Type} (r : Result A) (k : A -> Result B) : Result B :=
  match r with
  | Ok a => k a
  | Throw e => Throw e
  end.

Notation "'let*' x := r 'in' k" := (bind r (fun x => k))
  (at level 10, x name, r at level 100, k at level 200).

(** ToBoolean. *)
Definition truthy (v : JSVal) : bool :=
  match v with
  | VUndefined | VNull => false
  | VBool b => b
  | VNum text => negb (String.eqb text "0" || String.eqb text "NaN")
  | VStr s => negb (is_empty s)
  | VArr _ | VObj _ => true
  end.

(** [v === p] for a primitive [p]: same type and same value.  An array or
    an object is never identical to a primitive. *)
Definition strict_eq_prim (v p : JSVal) : bool :=
  match v, p with
  | VUndefined, VUndefined => true
  | VNull, VNull => true
  | VBool a, VBool b => Bool.eqb a b
  | VNum a, VNum b => String.eqb a b && negb (String.eqb a "NaN")
  | VStr a, VStr b => String.eqb a b
  | _, _ => false
  end.

(** ToString, as a template literal applies it. *)
Fixpoint ToString (v : JSVal) : string :=
  match v with
  | VUndefined => "undefined"
  | VNull => "null"
  | VBool true => "true"
  | VBool false => "false"
  | VNum text => text
  | VStr s => s
  | VArr items =>
      (fix join (l : list JSVal) : string :=
         match l with
         | [] => EmptyString
         | x :: rest =>
             let sx := match x with
                       | VUndefined | VNull => EmptyString
                       | _ => ToString x
                       end in
             match rest with
             | [] => sx
             | _ => sx +:+ "," +:+ join rest
             end
         end) items
  | VObj _ => "[object Object]"
  end.

(** The own property [k] of a parsed object: the first binding of [k]. *)
Fixpoint lookup_field (k : string) (fields : list (string * JSVal)) : JSVal :=
  match fields with
  | [] => VUndefined
  | (k', v) :: rest => if String.eqb k k' then v else lookup_field k rest
  end.

Definition cannot_read (what k : string) : Error :=
  mkError ("Cannot read properties of " +:+ what +:+ " (reading '" +:+ k +:+ "')").

(** [v.k] for the property names the widgets read ([response], [sources],
    [detail], [status], [type], [url], [title], [source], [apiBase],
    [webSearchEnabled]): none of them is a property of a string, a number,
    a boolean or an array, so only an object can hold one; reading a
    property of [undefined] or [null] throws a TypeError. *)
Definition getProp (v : JSVal) (k : string) : Result JSVal :=
  match v with
  | VUndefined => Throw (cannot_read "undefined" k)
  | VNull => Throw (cannot_read "null" k)
  | VObj fields => Ok (lookup_field k fields)
  | _ => Ok VUndefined
  end.

(** ** State and exceptions *)

Definition M (S A : Type) : Type := S -> Result A * S.

Definition ret {S A : Type} (a : A) : M S A := fun s => (Ok a, s).

Definition throw {S A : Type} (e : Error) : M S A := fun s => (Throw e, s).

Definition lift {S A : Type} (r : Result A) : M S A := fun s => (r, s).

Definition bindM {S A B : Type} (m : M S A) (k : A -> M S B) : M S B :=
  fun s =>
    match m s with
    | (Ok a, s') => k a s'
    | (Throw e, s') => (Throw e, s')
    end.

Definition gets {S A : Type} (f : S -> A) : M S A := fun s => (Ok (f s), s).

Definition modify {S : Type} (f : S -> S) : M S unit := fun s => (Ok tt, f s).

(** [try { m } catch (error) { h error }]. *)
Definition try_catch {S A : Type} (m : M S A) (h : Error -> M S A) : M S A :=
  fun s =>
    match m s with
    | (Ok a, s') => (Ok a, s')
    | (Throw e, s') => h e s'
    end.

(** [... finally { f }]: [f] runs on every exit and the outcome of the
    protected block stands unless [f] itself throws. *)
Definition finally {S A : Type} (m : M S A) (f : M S unit) : M S A :=
  fun s =>
    let '(r, s') := m s in
    match f s' with
    | (Ok _, s'') => (r, s'')
    | (Throw e, s'') => (Throw e, s'')
    end.

(** The state a handler leaves behind; the result of an event handler is
    dropped and a rejection of its promise is not observed. *)
Definition exec {S A : Type} (m : M S A) (s : S) : S := snd (m s).

Notation "'let!' x := m 'in' k" := (bindM m (fun x => k))
  (at level 10, x name, m at level 100, k at level 200).
Notation "m ;; k" := (bindM m (fun _ => k))
  (at level 100, k at level 200, right associativity).

(** ** Markup of a message (ca-chatbot-widget.js) *)

Fixpoint spaces (n : nat) : string :=
  match n with
  | O => EmptyString
  | S n' => String " " (spaces n')
  end.

(** The line break of a template literal and the indentation after it. *)
Definition br (n : nat) : string := nl +:+ spaces n.

(** The avatar and source glyphs, by the bytes the file holds. *)
Definition glyph_user : string := glyph [239; 163; 191; 195; 188; 195; 171; 194; 167].
Definition glyph_bot : string := glyph [239; 163; 191; 195; 188; 195; 159; 195; 134].
Definition glyph_web : string := glyph [239; 163; 191; 195; 188; 195; 165; 195; 170].
Definition glyph_doc : string := glyph [239; 163; 191; 195; 188; 195; 172; 195; 145].

(** The two templates of the callback of [createSourcesHTML]. *)
Definition web_item (url title : string) : string :=
  br 10 +:+ "<div class=" +:+ q "ca-source-item" +:+ ">" +:+
  br 12 +:+ glyph_web +:+ " <a href=" +:+ q url +:+ " target=" +:+ q "_blank" +:+
            " class=" +:+ q "ca-source-link" +:+ ">" +:+ title +:+ "</a>" +:+
  br 10 +:+ "</div>" +:+
  br 8.

Definition doc_item (label : string) : string :=
  br 10 +:+ "<div class=" +:+ q "ca-source-item" +:+ ">" +:+
  br 12 +:+ glyph_doc +:+ " <span class=" +:+ q "ca-source-link" +:+ ">" +:+ label +:+ "</span>" +:+
  br 10 +:+ "</div>" +:+
  br 8.

Definition sources_block (sourcesHTML : string) : string :=
  br 6 +:+ "<div class=" +:+ q "ca-sources" +:+ ">" +:+
  br 8 +:+ "<div class=" +:+ q "ca-sources-header" +:+ ">Sources:</div>" +:+
  br 8 +:+ sourcesHTML +:+
  br 6 +:+ "</div>" +:+
  br 4.

Definition message_html (isUser : bool) (content sourcesHTML : string) : string :=
  br 6 +:+ "<div class=" +:+ q "ca-message-avatar" +:+ ">" +:+
           (if isUser then glyph_user else glyph_bot) +:+ "</div>" +:+
  br 6 +:+ "<div class=" +:+ q "ca-message-bubble" +:+ ">" +:+
  br 8 +:+ "<div>" +:+ content +:+ "</div>" +:+
  br 8 +:+ sourcesHTML +:+
  br 6 +:+ "</div>" +:+
  br 4.

(** [a || b] on values. *)
Definition or_else (a b : JSVal) : JSVal := if truthy a then a else b.

(** The callback mapped over the sources:
    [source.type === 'web' && source.url] chooses the link template. *)
Definition sourceItemHTML (source : JSVal) : Result string :=
  let* type := getProp source "type" in
  let* is_link :=
    (if strict_eq_prim type (VStr "web")
     then let* url := getProp source "url" in Ok (truthy url)
     else Ok false) in
  if is_link : bool then
    let* url := getProp source "url" in
    let* title := getProp source "title" in
    Ok (web_item (ToString url) (ToString title))
  else
    let* src := getProp source "source" in
    Ok (doc_item (ToString (or_else src (VStr "Document")))).

Fixpoint mapM {A B : Type} (f : A -> Result B) (l : list A) : Result (list B) :=
  match l with
  | [] => Ok []
  | x :: rest =>
      let* y := f x in
      let* ys := mapM f rest in
      Ok (y :: ys)
  end.

(** [parts.join('')]. *)
Definition join_empty (parts : list string) : string :=
  fold_right String.append EmptyString parts.

Definition not_a_function (what : string) : Error :=
  mkError (what +:+ " is not a function").

(** [sources.slice(0, 3)] of an array. *)
Definition slice_0_3 (items : list JSVal) : list JSVal := take 3 items.

(** [createSourcesHTML(sources)].  Past the guard [sources] is truthy: an
    array is sliced and mapped; a string has a [slice] whose result has no
    [map]; a number or [true] has no [slice]; a parsed object holds no
    function, so it passes the guard when its [length] is [0] and has no
    callable [slice] otherwise. *)
Definition createSourcesHTML (sources : JSVal) : Result string :=
  if negb (truthy sources) then Ok EmptyString
  else
    match sources with
    | VArr items =>
        if Nat.eqb (length items) 0 then Ok EmptyString
        else
          let* parts := mapM sourceItemHTML (slice_0_3 items) in
          Ok (sources_block (join_empty parts))
    | VStr _ => Throw (not_a_function "sources.slice(...).map")
    | VObj fields =>
        if strict_eq_prim (lookup_field "length" fields) (VNum "0") then Ok EmptyString
        else Throw (not_a_function "sources.slice")
    | _ => Throw (not_a_function "sources.slice")
    end.

(** ** The widget [CAChatbotWidget] (ca-chatbot-widget.js) *)

(** A child of the messages container. *)
Record Node : Type := mkNode { className : string; innerHTML : string }.

(** A call of [fetch]: the health probe is a GET without a body, the chat
    request a POST whose body holds [message], [web_search_enabled] and
    [session_id]. *)
Inductive Request : Type :=
| GET (url : string)
| POST (url : string) (message : string) (web_search_enabled : bool)
       (session_id : string).

(** The state of a widget: its fields, the elements of the page it reads
    and writes, and the requests it has issued.  Scroll position, focus
    and the height of the textarea are layout and are left out. *)
Record Widget : Type := mkWidget {
  (* fields of the instance *)
  apiBase : JSVal;
  webSearchEnabled : bool;
  sessionId : string;
  isOpen : bool;
  isLoading : bool;
  (* the page: class [open] of #ca-chat-interface, class [active] of
     #ca-web-search-toggle, text of #ca-web-search-status, text and class
     of #ca-connection-status, value of #ca-input-field, [disabled] of
     #ca-send-btn, [style.display] of #ca-typing, children of
     #ca-chat-messages *)
  interface_open : bool;
  web_search_active : bool;
  web_search_status : string;
  connection_text : string;
  connection_class : string;
  input_value : string;
  send_disabled : bool;
  typing_display : string;
  chat_messages : list Node;
  (* the requests handed to [fetch], oldest first *)
  sent : list Request
}.

Definition set_webSearchEnabled (v : bool) (w : Widget) : Widget :=
  mkWidget (apiBase w) v (sessionId w) (isOpen w) (isLoading w)
    (interface_open w) (web_search_active w) (web_search_status w)
    (connection_text w) (connection_class w) (input_value w) (send_disabled w)
    (typing_display w) (chat_messages w) (sent w).

Definition set_isOpen (v : bool) (w : Widget) : Widget :=
  mkWidget (apiBase w) (webSearchEnabled w) (sessionId w) v (isLoading w)
    (interface_open w) (web_search_active w) (web_search_status w)
    (connection_text w) (connection_class w) (input_value w) (send_disabled w)
    (typing_display w) (chat_messages w) (sent w).

Definition set_isLoading (v : bool) (w : Widget) : Widget :=
  mkWidget (apiBase w) (webSearchEnabled w) (sessionId w) (isOpen w) v
    (interface_open w) (web_search_active w) (web_search_status w)
    (connection_text w) (connection_class w) (input_value w) (send_disabled w)
    (typing_display w) (chat_messages w) (sent w).

Definition set_interface_open (v : bool) (w : Widget) : Widget :=
  mkWidget (apiBase w) (webSearchEnabled w) (sessionId w) (isOpen w)
    (isLoading w) v (web_search_active w) (web_search_status w)
    (connection_text w) (connection_class w) (input_value w) (send_disabled w)
    (typing_display w) (chat_messages w) (sent w).

Definition set_web_search_active (v : bool) (w : Widget) : Widget :=
  mkWidget (apiBase w) (webSearchEnabled w) (sessionId w) (isOpen w)
    (isLoading w) (interface_open w) v (web_search_status w)
    (connection_text w) (connection_class w) (input_value w) (send_disabled w)
    (typing_display w) (chat_messages w) (sent w).

Definition set_web_search_status (v : string) (w : Widget) : Widget :=
  mkWidget (apiBase w) (webSearchEnabled w) (sessionId w) (isOpen w)
    (isLoading w) (interface_open w) (web_search_active w) v
    (connection_text w) (connection_class w) (input_value w) (send_disabled w)
    (typing_display w) (chat_messages w) (sent w).

Definition set_connection_text (v : string) (w : Widget) : Widget :=
  mkWidget (apiBase w) (webSearchEnabled w) (sessionId w) (isOpen w)
    (isLoading w) (interface_open w) (web_search_active w)
    (web_search_status w) v (connection_class w) (input_value w)
    (send_disabled w) (typing_display w) (chat_messages w) (sent w).

Definition set_connection_class (v : string) (w : Widget) : Widget :=
  mkWidget (apiBase w) (webSearchEnabled w) (sessionId w) (isOpen w)
    (isLoading w) (interface_open w) (web_search_active w)
    (web_search_status w) (connection_text w) v (input_value w)
    (send_disabled w) (typing_display w) (chat_messages w) (sent w).

Definition set_input_value (v : string) (w : Widget) : Widget :=
  mkWidget (apiBase w) (webSearchEnabled w) (sessionId w) (isOpen w)
    (isLoading w) (interface_open w) (web_search_active w)
    (web_search_status w) (connection_text w) (connection_class w) v
    (send_disabled w) (typing_display w) (chat_messages w) (sent w).

Definition set_send_disabled (v : bool) (w : Widget) : Widget :=
  mkWidget (apiBase w) (webSearchEnabled w) (sessionId w) (isOpen w)
    (isLoading w) (interface_open w) (web_search_active w)
    (web_search_status w) (connection_text w) (connection_class w)
    (input_value w) v (typing_display w) (chat_messages w) (sent w).

Definition set_typing_display (v : string) (w : Widget) : Widget :=
  mkWidget (apiBase w) (webSearchEnabled w) (sessionId w) (isOpen w)
    (isLoading w) (interface_open w) (web_search_active w)
    (web_search_status w) (connection_text w) (connection_class w)
    (input_value w) (send_disabled w) v (chat_messages w) (sent w).

Definition set_chat_messages (v : list Node) (w : Widget) : Widget :=
  mkWidget (apiBase w) (webSearchEnabled w) (sessionId w) (isOpen w)
    (isLoading w) (interface_open w) (web_search_active w)
    (web_search_status w) (connection_text w) (connection_class w)
    (input_value w) (send_disabled w) (typing_display w) v (sent w).

Definition set_sent (v : list Request) (w : Widget) : Widget :=
  mkWidget (apiBase w) (webSearchEnabled w) (sessionId w) (isOpen w)
    (isLoading w) (interface_open w) (web_search_active w)
    (web_search_status w) (connection_text w) (connection_class w)
    (input_value w) (send_disabled w) (typing_display w) (chat_messages w) v.

(** The outcome of [await fetch(...)] followed by [await response.json()]:
    the request is rejected, or a response arrives whose body does not
    parse, or a response arrives with a parsed body.  Nothing runs
    between the two [await]s, so one outcome stands for both. *)
Record Response : Type := mkResponse { status : Z; body : JSVal }.

Inductive Settled : Type :=
| FetchFailed (e : Error)
| BodyFailed (status : Z) (e : Error)
| Body (r : Response).

(** [response.ok]. *)
Definition ok (status : Z) : bool := ((200 <=? status) && (status <=? 299))%Z.

Definition awaited {S : Type} (o : Settled) : M S Response :=
  match o with
  | FetchFailed e => throw e
  | BodyFailed _ e => throw e
  | Body r => ret r
  end.

Definition default_apiBase : string := "https://ca-chatbot-ld8v.onrender.com".

(** ['session_' + Date.now() + '_' + Math.random().toString(36).substr(2, 9)];
    the clock and the random digits are inputs.  [Date.now()] is a whole
    number of milliseconds, far below [1e21], and prints in decimal. *)
Definition generateSessionId (now : Z) (random36 : string) : string :=
  "session_" +:+ pretty now +:+ "_" +:+ String.substring 2 9 random36.

Definition greeting_text : string :=
  "Hello! I'm your CA Assistant, specialized in Indian tax laws, GST compliance, and accounting regulations. How can I help you today?".

(** The bot message that the markup of [createWidget] puts in the
    container. *)
Definition greeting : Node :=
  mkNode "ca-message bot"
    (br 12 +:+ "<div class=" +:+ q "ca-message-avatar" +:+ ">" +:+ glyph_bot +:+ "</div>" +:+
     br 12 +:+ "<div class=" +:+ q "ca-message-bubble" +:+ ">" +:+
     br 14 +:+ greeting_text +:+
     br 12 +:+ "</div>" +:+
     br 10).

Definition fetch (r : Request) : M Widget unit :=
  modify (fun w => set_sent (sent w ++ [r]) w).

(** [checkAPIHealth()] up to its [await]: the probe is issued. *)
Definition checkAPIHealth : M Widget unit :=
  let! base := gets apiBase in
  fetch (GET (ToString base +:+ "/health")).

(** [checkAPIHealth()] from its [await] on. *)
Definition checkAPIHealth_settled (o : Settled) : M Widget unit :=
  try_catch
    (let! response := awaited o in
     let! healthy :=
       (if ok (status response)
        then let! st := lift (getProp (body response) "status") in
             ret (strict_eq_prim st (VStr "healthy"))
        else ret false) in
     if healthy : bool then
       modify (set_connection_text "Online") ;;
       modify (set_connection_class "ca-status-online")
     else throw (mkError "API unhealthy"))
    (fun _ =>
       modify (set_connection_text "Offline") ;;
       modify (set_connection_class "ca-status-offline")).

(** [init()]: [createWidget()] builds the elements, [attachEventListeners()]
    registers [handle] below, and [checkAPIHealth()] issues the first
    probe. *)
Definition init (base : JSVal) (enabled : bool) (sid : string) : Widget :=
  exec checkAPIHealth
    {| apiBase := base;
       webSearchEnabled := enabled;
       sessionId := sid;
       isOpen := false;
       isLoading := false;
       interface_open := false;
       web_search_active := false;
       web_search_status := "Web Search: " +:+ (if enabled then "ON" else "OFF");
       connection_text := "Connecting...";
       connection_class := "ca-status-offline";
       input_value := EmptyString;
       send_disabled := true;
       typing_display := "none";
       chat_messages := [greeting];
       sent := [] |}.

(** [new CAChatbotWidget(options)]: the fields, then [init()].  An omitted
    argument is [{}]. *)
Definition construct (options : JSVal) (now : Z) (random36 : string) : Result Widget :=
  let options := match options with VUndefined => VObj [] | o => o end in
  let* base := getProp options "apiBase" in
  let* wse := getProp options "webSearchEnabled" in
  Ok (init (or_else base (VStr default_apiBase))
           (negb (strict_eq_prim wse (VBool false)))
           (generateSessionId now random36)).

Definition openChat : M Widget unit :=
  modify (set_isOpen true) ;;
  modify (set_interface_open true).

Definition closeChat : M Widget unit :=
  modify (set_isOpen false) ;;
  modify (set_interface_open false).

Definition toggleChat : M Widget unit :=
  let! o := gets isOpen in
  if o : bool then closeChat else openChat.

Definition toggleWebSearch : M Widget unit :=
  modify (fun w => set_webSearchEnabled (negb (webSearchEnabled w)) w) ;;
  let! enabled := gets webSearchEnabled in
  if enabled : bool then
    modify (set_web_search_active true) ;;
    modify (set_web_search_status "Web Search: ON")
  else
    modify (set_web_search_active false) ;;
    modify (set_web_search_status "Web Search: OFF").

Definition updateSendButton : M Widget unit :=
  modify (fun w =>
    set_send_disabled (is_empty (trim (input_value w)) || isLoading w) w).

(** [autoResize()] sets the height of the textarea only. *)
Definition autoResize : M Widget unit := ret tt.

(** The part [${sources ? this.createSourcesHTML(sources) : ''}] of the
    markup of a message. *)
Definition sourcesHTML_of (sources : JSVal) : Result string :=
  if truthy sources then createSourcesHTML sources else Ok EmptyString.

Definition message_node (isUser : bool) (content sourcesHTML : string) : Node :=
  mkNode ("ca-message " +:+ (if isUser then "user" else "bot"))
         (message_html isUser content sourcesHTML).

(** [addMessage(content, isUser = false, sources = null)]. *)
Definition addMessage (content : JSVal) (isUser : bool) (sources : JSVal) : M Widget unit :=
  let sources := match sources with VUndefined => VNull | s => s end in
  let! sourcesHTML := lift (sourcesHTML_of sources) in
  modify (fun w =>
    set_chat_messages
      (chat_messages w ++ [message_node isUser (ToString content) sourcesHTML]) w).

Definition showTyping : M Widget unit := modify (set_typing_display "flex").

Definition hideTyping : M Widget unit := modify (set_typing_display "none").

(** [sendMessage()] up to [await fetch(...)]. *)
Definition sendMessage : M Widget unit :=
  let! input := gets input_value in
  let message := trim input in
  let! loading := gets isLoading in
  if (is_empty message || loading)%bool then ret tt
  else
    addMessage (VStr message) true VUndefined ;;
    modify (set_input_value EmptyString) ;;
    updateSendButton ;;
    autoResize ;;
    modify (set_isLoading true) ;;
    showTyping ;;
    let! base := gets apiBase in
    let! wse := gets webSearchEnabled in
    let! sid := gets sessionId in
    fetch (POST (ToString base +:+ "/api/chat") message wse sid).

Definition error_notice (detail : JSVal) : string :=
  "Sorry, I encountered an error: " +:+ ToString (or_else detail (VStr "Unknown error")).

Definition offline_notice (e : Error) : string :=
  "I'm currently offline. Please try again later. (" +:+ message e +:+ ")".

(** [sendMessage()] from [await fetch(...)] on: the rest of the [try]
    block, the [catch] and the [finally]. *)
Definition sendMessage_settled (o : Settled) : M Widget unit :=
  finally
    (try_catch
       (let! response := awaited o in
        let data := body response in
        if ok (status response) then
          let! text := lift (getProp data "response") in
          let! sources := lift (getProp data "sources") in
          addMessage text false sources ;;
          checkAPIHealth
        else
          let! detail := lift (getProp data "detail") in
          addMessage (VStr (error_notice detail)) false VUndefined)
       (fun error =>
          addMessage (VStr (offline_notice error)) false VUndefined))
    (modify (set_isLoading false) ;;
     hideTyping ;;
     updateSendButton).

(** What happens to the page.  A click on a disabled button fires no
    event; a key pressed in the textarea reaches its listener and then,
    bubbling, the listener of the document. *)
Inductive Event : Type :=
| ClickToggle
| ClickClose
| ClickWebSearch
| ClickSend
| InputText (text : string)
| KeyDown (inTextarea : bool) (key : string) (shiftKey : bool)
| ChatSettled (o : Settled)
| HealthSettled (o : Settled).

Definition onKeyDownInput (key : string) (shiftKey : bool) : M Widget unit :=
  if (String.eqb key "Enter" && negb shiftKey)%bool then sendMessage else ret tt.

Definition onKeyDownDocument (key : string) : M Widget unit :=
  let! o := gets isOpen in
  if (String.eqb key "Escape" && o)%bool then closeChat else ret tt.

Definition handle (ev : Event) (w : Widget) : Widget :=
  match ev with
  | ClickToggle => exec toggleChat w
  | ClickClose => exec closeChat w
  | ClickWebSearch => exec toggleWebSearch w
  | ClickSend => if send_disabled w then w else exec sendMessage w
  | InputText text =>
      exec (updateSendButton ;; autoResize) (set_input_value text w)
  | KeyDown inTextarea key shiftKey =>
      let w' := if inTextarea then exec (onKeyDownInput key shiftKey) w else w in
      exec (onKeyDownDocument key) w'
  | ChatSettled o => exec (sendMessage_settled o) w
  | HealthSettled o => exec (checkAPIHealth_settled o) w
  end.

Definition run (evs : list Event) (w : Widget) : Widget :=
  fold_left (fun acc ev => handle ev acc) evs w.

(** ** The widget [CAEmbedWidget] (ca-chatbot-embed.js) *)

Module Embed.

(** The constant [CONFIG]. *)
Definition CONFIG_apiBase : string := "https://ca-chatbot-ld8v.onrender.com".
Definition CONFIG_webSearchEnabled : bool := true.

Record Widget : Type := mkWidget {
  isOpen : bool;
  isLoading : bool;
  sessionId : string;
  (* the page: class [open] of #ca-embed-interface, value of
     #ca-embed-textarea, [disabled] of #ca-embed-send, children of
     #ca-embed-messages *)
  interface_open : bool;
  textarea_value : string;
  send_disabled : bool;
  messages : list Node;
  (* the requests handed to [fetch], oldest first *)
  sent : list Request
}.

Definition set_isOpen (v : bool) (w : Widget) : Widget :=
  mkWidget v (isLoading w) (sessionId w) (interface_open w) (textarea_value w)
    (send_disabled w) (messages w) (sent w).

Definition set_isLoading (v : bool) (w : Widget) : Widget :=
  mkWidget (isOpen w) v (sessionId w) (interface_open w) (textarea_value w)
    (send_disabled w) (messages w) (sent w).

Definition set_interface_open (v : bool) (w : Widget) : Widget :=
  mkWidget (isOpen w) (isLoading w) (sessionId w) v (textarea_value w)
    (send_disabled w) (messages w) (sent w).

Definition set_textarea_value (v : string) (w : Widget) : Widget :=
  mkWidget (isOpen w) (isLoading w) (sessionId w) (interface_open w) v
    (send_disabled w) (messages w) (sent w).

Definition set_send_disabled (v : bool) (w : Widget) : Widget :=
  mkWidget (isOpen w) (isLoading w) (sessionId w) (interface_open w)
    (textarea_value w) v (messages w) (sent w).

Definition set_messages (v : list Node) (w : Widget) : Widget :=
  mkWidget (isOpen w) (isLoading w) (sessionId w) (interface_open w)
    (textarea_value w) (send_disabled w) v (sent w).

Definition set_sent (v : list Request) (w : Widget) : Widget :=
  mkWidget (isOpen w) (isLoading w) (sessionId w) (interface_open w)
    (textarea_value w) (send_disabled w) (messages w) v.

(** The bot message in the markup [widgetHTML]. *)
Definition greeting : Node :=
  mkNode "ca-embed-message bot"
    (br 12 +:+ "<div class=" +:+ q "ca-embed-bubble" +:+ ">" +:+
     br 14 +:+ greeting_text +:+
     br 12 +:+ "</div>" +:+
     br 10).

(** [new CAEmbedWidget()], once [create()] has run. *)
Definition construct (now : Z) (random36 : string) : Widget :=
  {| isOpen := false;
     isLoading := false;
     sessionId := generateSessionId now random36;
     interface_open := false;
     textarea_value := EmptyString;
     send_disabled := true;
     messages := [greeting];
     sent := [] |}.

Definition fetch (r : Request) : M Widget unit :=
  modify (fun w => set_sent (sent w ++ [r]) w).

Definition open : M Widget unit :=
  modify (set_isOpen true) ;;
  modify (set_interface_open true).

Definition close : M Widget unit :=
  modify (set_isOpen false) ;;
  modify (set_interface_open false).

Definition toggle : M Widget unit :=
  let! o := gets isOpen in
  if o : bool then close else open.

Definition updateSendButton : M Widget unit :=
  modify (fun w =>
    set_send_disabled (is_empty (trim (textarea_value w)) || isLoading w) w).

Definition message_node (isUser : bool) (content : string) : Node :=
  mkNode ("ca-embed-message " +:+ (if isUser then "user" else "bot"))
         ("<div class=" +:+ q "ca-embed-bubble" +:+ ">" +:+ content +:+ "</div>").

(** [addMessage(content, isUser = false)]. *)
Definition addMessage (content : JSVal) (isUser : bool) : M Widget unit :=
  modify (fun w =>
    set_messages (messages w ++ [message_node isUser (ToString content)]) w).

(** [messages.removeChild(messages.lastElementChild)]; without a child
    the argument is [null] and [removeChild] throws. *)
Definition removeLastChild : M Widget unit :=
  let! children := gets messages in
  match children with
  | [] => throw (mkError "Failed to execute 'removeChild' on 'Node': parameter 1 is not of type 'Node'.")
  | _ => modify (set_messages (removelast children))
  end.

(** [sendMessage()] up to [await fetch(...)]. *)
Definition sendMessage : M Widget unit :=
  let! input := gets textarea_value in
  let message := trim input in
  let! loading := gets isLoading in
  if (is_empty message || loading)%bool then ret tt
  else
    addMessage (VStr message) true ;;
    modify (set_textarea_value EmptyString) ;;
    updateSendButton ;;
    modify (set_isLoading true) ;;
    addMessage (VStr "Thinking...") false ;;
    let! sid := gets sessionId in
    fetch (POST (CONFIG_apiBase +:+ "/api/chat") message CONFIG_webSearchEnabled sid).

(** [sendMessage()] from [await fetch(...)] on. *)
Definition sendMessage_settled (o : Settled) : M Widget unit :=
  finally
    (try_catch
       (let! response := awaited o in
        let data := body response in
        removeLastChild ;;
        if ok (status response) then
          let! text := lift (getProp data "response") in
          addMessage text false
        else
          addMessage (VStr "Sorry, I encountered an error. Please try again.") false)
       (fun _ =>
          removeLastChild ;;
          addMessage (VStr "I'm currently offline. Please try again later.") false))
    (modify (set_isLoading false) ;;
     updateSendButton).

Inductive Event : Type :=
| ClickToggle
| ClickClose
| ClickSend
| InputText (text : string)
| KeyDown (key : string) (shiftKey : bool)
| ChatSettled (o : Settled).

Definition handle (ev : Event) (w : Widget) : Widget :=
  match ev with
  | ClickToggle => exec toggle w
  | ClickClose => exec close w
  | ClickSend => if send_disabled w then w else exec sendMessage w
  | InputText text => exec updateSendButton (set_textarea_value text w)
  | KeyDown key shiftKey =>
      if (String.eqb key "Enter" && negb shiftKey)%bool
      then exec sendMessage w else w
  | ChatSettled o => exec (sendMessage_settled o) w
  end.

(** *** Runs and summaries *)

Definition fresh : Widget := construct 1700000000000 "0.4fzyo82mvyr".

(** The user types [text] and presses the send button. *)
Definition ask (text : string) (w : Widget) : Widget :=
  handle ClickSend (handle (InputText text) w).

Definition exchange (text : string) (o : Settled) (w : Widget) : Widget :=
  handle (ChatSettled o) (ask text w).

Definition exchanges (l : list (string * Settled)) (w : Widget) : Widget :=
  fold_left (fun acc p => exchange (fst p) (snd p) acc) l w.

(** The placeholder shown while the request is in flight. *)
Definition thinking : Node := message_node false "Thinking...".

Definition offline_node : Node :=
  message_node false "I'm currently offline. Please try again later.".

Definition error_node : Node :=
  message_node false "Sorry, I encountered an error. Please try again.".

(** The state in which an admitted [sendMessage] leaves the widget at its
    [await]. *)
Definition started (w : Widget) : Widget :=
  let message := trim (textarea_value w) in
  set_sent
    (sent w ++ [POST (CONFIG_apiBase +:+ "/api/chat") message
                     CONFIG_webSearchEnabled (sessionId w)])
    (set_messages ((messages w ++ [message_node true message]) ++ [thinking])
       (set_isLoading true
          (set_send_disabled true
             (set_textarea_value EmptyString w)))).


(** The message that takes the place of the placeholder when the [try]
    block does not throw after the removal. *)
Definition reply (o : Settled) : Node :=
  match o with
  | FetchFailed _ => offline_node
  | BodyFailed _ _ => offline_node
  | Body r =>
      if ok (status r) then
        match getProp (body r) "response" with
        | Ok text => message_node false (ToString text)
        | Throw _ => offline_node
        end
      else error_node
  end.

(** The messages that a sequence of exchanges adds when no [try] block
    throws after the removal of the placeholder. *)
Definition turns (l : list (string * Settled)) : list Node :=
  flat_map (fun p => [message_node true (trim (fst p)); reply (snd p)]) l.

End Embed.

(** ** Runs of the widgets *)

(** The widget of the page: the script constructs it with
    [{apiBase: 'https://ca-chatbot-ld8v.onrender.com', webSearchEnabled: true}]. *)
Definition page_options : JSVal :=
  VObj [("apiBase", VStr default_apiBase); ("webSearchEnabled", VBool true)].

Definition fresh : Widget :=
  init (VStr default_apiBase) true (generateSessionId 1700000000000 "0.4fzyo82mvyr").

(** The user types [text] and presses the send button. *)
Definition ask (text : string) (w : Widget) : Widget :=
  handle ClickSend (handle (InputText text) w).

(** A whole exchange: the question, then the settling of its request. *)
Definition exchange (text : string) (o : Settled) (w : Widget) : Widget :=
  handle (ChatSettled o) (ask text w).

Definition exchanges (l : list (string * Settled)) (w : Widget) : Widget :=
  fold_left (fun acc p => exchange (fst p) (snd p) acc) l w.

(** The number of health probes among the requests issued. *)
Definition is_probe (r : Request) : bool :=
  match r with GET _ => true | POST _ _ _ _ => false end.


(** ** Summaries of [sendMessage], for the proofs *)

(** The state in which an admitted [sendMessage] leaves the widget at its
    [await]. *)
Definition started (w : Widget) : Widget :=
  let message := trim (input_value w) in
  set_sent
    (sent w ++ [POST (ToString (apiBase w) +:+ "/api/chat") message
                     (webSearchEnabled w) (sessionId w)])
    (set_typing_display "flex"
       (set_isLoading true
          (set_send_disabled true
             (set_input_value EmptyString
                (set_chat_messages
                   (chat_messages w ++ [message_node true message EmptyString]) w))))).

(** The message built from a parsed body in the branch [response.ok]. *)
Definition rendered_reply (data : JSVal) : Result Node :=
  let* text := getProp data "response" in
  let* sources := getProp data "sources" in
  let* html := sourcesHTML_of (match sources with VUndefined => VNull | s => s end) in
  Ok (message_node false (ToString text) html).

(** A bot message without sources. *)
Definition notice_node (text : string) : Node := message_node false text EmptyString.

(** The message that the settling of a chat request appends, and whether
    [checkAPIHealth()] is reached. *)
Definition settled_reply (o : Settled) : Node * bool :=
  match o with
  | FetchFailed e => (notice_node (offline_notice e), false)
  | BodyFailed _ e => (notice_node (offline_notice e), false)
  | Body r =>
      if ok (status r) then
        match rendered_reply (body r) with
        | Ok n => (n, true)
        | Throw e => (notice_node (offline_notice e), false)
        end
      else
        match getProp (body r) "detail" with
        | Ok d => (notice_node (error_notice d), false)
        | Throw e => (notice_node (offline_notice e), false)
        end
  end.

Definition settle_with (reply : Node * bool) (w : Widget) : Widget :=
  let w1 := set_chat_messages (chat_messages w ++ [fst reply]) w in
  let w2 := if snd reply then exec checkAPIHealth w1 else w1 in
  exec updateSendButton (exec hideTyping (set_isLoading false w2)).

(** ** The connection status shown by the page *)



(** The probe got a 2xx response whose parsed body has the [status]
    ["healthy"]. *)
Definition healthy (o : Settled) : Prop :=
  exists st data,
    o = Body (mkResponse st data)
    /\ (200 <= st <= 299)%Z
    /\ getProp data "status" = Ok (VStr "healthy").

Definition healthy_b (o : Settled) : bool :=
  match o with
  | Body r =>
      ok (status r) &&
      match getProp (body r) "status" with
      | Ok v => strict_eq_prim v (VStr "healthy")
      | Throw _ => false
      end
  | _ => false
  end.

(** ** Fields of a source *)

(** A field that is present and not empty: it passes the test the code
    applies to [source.url] and [source.source].  A missing field reads
    as [undefined]; a field holding the empty string is present and not
    filled. *)
Definition filled (v : JSVal) : Prop := truthy v = true.



(** ** Outcomes of a chat request *)

(** The two notices that report a failure to the user. *)
Definition failure_notice (text : string) : Prop :=
  (exists detail, text = error_notice detail)
  \/ (exists e, text = offline_notice e).


(** ** Transcripts *)

(** The messages that a sequence of exchanges adds: for each one the
    user message, then the reply. *)
Definition turns (l : list (string * Settled)) : list Node :=
  flat_map (fun p => [message_node true (trim (fst p)) EmptyString;
                      fst (settled_reply (snd p))]) l.


(** ** Reachable states *)

(** The page agrees with the fields of the widget: the interface is shown
    when the widget is open, the send button is disabled when the input
    is blank or a request is in flight, the typing indicator is shown
    when a request is in flight, and the status line names the web
    search flag. *)
Definition page_consistent (w : Widget) : Prop :=
  interface_open w = isOpen w
  /\ send_disabled w = (is_empty (trim (input_value w)) || isLoading w)%bool
  /\ typing_display w = (if isLoading w then "flex" else "none")
  /\ web_search_status w =
     "Web Search: " +:+ (if webSearchEnabled w then "ON" else "OFF").

(** The event is the settling of a chat request. *)
Definition settles (ev : Event) : bool :=
  match ev with ChatSettled _ => true | _ => false end.

(** A request as a widget with base [base] and session [sid] issues it:
    the probe goes to [/health], the chat request to [/api/chat] with the
    session and a message that is not empty and has no white space
    around it. *)
Definition request_ok (base : JSVal) (sid : string) (r : Request) : Prop :=
  match r with
  | GET url => url = ToString base +:+ "/health"
  | POST url m _ s =>
      url = ToString base +:+ "/api/chat" /\ s = sid
      /\ m <> EmptyString /\ trim m = m
  end.


(** *** [CAEmbedWidget] *)

Definition embed_run (evs : list Embed.Event) (w : Embed.Widget) : Embed.Widget :=
  fold_left (fun acc ev => Embed.handle ev acc) evs w.

Definition embed_settles (ev : Embed.Event) : bool :=
  match ev with Embed.ChatSettled _ => true | _ => false end.


Definition embed_request_ok (sid : string) (r : Request) : Prop :=
  match r with
  | GET _ => False
  | POST url m wse s =>
      url = Embed.CONFIG_apiBase +:+ "/api/chat" /\ wse = true /\ s = sid
      /\ m <> EmptyString /\ trim m = m
  end.

(** The script ca-chatbot-embed.js, run in a page: it returns at once
    when [window.CAChatbotLoaded] is set; otherwise it sets the flag,
    appends its style sheet to the head and constructs one widget. *)
Record Window : Type := mkWindow {
  CAChatbotLoaded : bool;
  style_sheets : nat;
  embed_widgets : list Embed.Widget
}.

Definition embed_script (now : Z) (random36 : string) (win : Window) : Window :=
  if CAChatbotLoaded win then win
  else mkWindow true (S (style_sheets win))
                (embed_widgets win ++ [Embed.construct now random36]).

Definition embed_scripts (runs : list (Z * string)) (win : Window) : Window :=
  fold_left (fun acc p => embed_script (fst p) (snd p) acc) runs win.

(** ** Frames *)

(** Every run of [m] takes a state to a state related to it by [R],
    whether it returns or throws. *)
Definition keeps {S A : Type} (R : S -> S -> Prop) (m : M S A) : Prop :=
  forall s, R s (snd (m s)).

(** What the settling of a chat request leaves alone in [CAEmbedWidget]:
    everything but the transcript, the loading flag and the send
    button. *)
Definition embed_frame (w w' : Embed.Widget) : Prop :=
  Embed.sent w' = Embed.sent w
  /\ Embed.sessionId w' = Embed.sessionId w
  /\ Embed.textarea_value w' = Embed.textarea_value w
  /\ Embed.isOpen w' = Embed.isOpen w
  /\ Embed.interface_open w' = Embed.interface_open w.

(** * Properties *)

Example trim_ex : trim ("  What is GST? " +:+ nl) = "What is GST?".
Proof. reflexivity. Qed.

(** A text of no-break spaces, an em space and a byte order mark is
    empty once trimmed; a zero width space is not white space. *)
Example trim_unicode_ex :
  trim (glyph [194; 160; 226; 128; 131; 239; 187; 191; 32]) = EmptyString
  /\ trim (glyph [194; 160; 80; 65; 78; 226; 128; 168]) = "PAN"
  /\ trim (glyph [226; 128; 139]) = glyph [226; 128; 139].
Proof. repeat split. Qed.

Example ToString_ex :
  ToString (VArr [VNum "1"; VNull; VStr "a"; VArr [VNum "-2.5"; VBool true]]) = "1,,a,-2.5,true".
Proof. reflexivity. Qed.

(** ** Running handlers *)

Arguments message_html : simpl never.
Arguments web_item : simpl never.
Arguments doc_item : simpl never.
Arguments sources_block : simpl never.
Arguments trim : simpl never.
Arguments ToString : simpl never.
Arguments createSourcesHTML : simpl never.


Lemma is_empty_false (s : string) : is_empty s = false <-> s <> EmptyString.
Proof. destruct s; simpl; split; congruence. Qed.

Lemma sendMessage_guard (w : Widget) :
  (is_empty (trim (input_value w)) || isLoading w)%bool = true ->
  sendMessage w = (Ok tt, w).
Proof.
  intros G. unfold sendMessage, bindM, gets. rewrite G. reflexivity.
Qed.

(** C1. [sendMessage] does nothing when a request is in flight or when the
    text of the input field is empty once trimmed: it returns at its
    guard, the widget is left as it was, so no message is appended to the
    transcript, its length is unchanged and no request is issued. *)
Theorem sendMessage_rejected (w : Widget) :
  isLoading w = true \/ trim (input_value w) = EmptyString ->
  sendMessage w = (Ok tt, w)
  /\ chat_messages (exec sendMessage w) = chat_messages w
  /\ length (chat_messages (exec sendMessage w)) = length (chat_messages w)
  /\ sent (exec sendMessage w) = sent w.
Proof.
  intros H.
  assert (E : sendMessage w = (Ok tt, w)).
  { apply sendMessage_guard.
    destruct H as [H | H]; rewrite H; [apply orb_true_r | reflexivity]. }
  unfold exec. rewrite E. simpl. auto.
Qed.

Lemma sendMessage_rejected_witness :
  (isLoading (ask "What is GST?" fresh) = true
   /\ sendMessage (ask "What is GST?" fresh) = (Ok tt, ask "What is GST?" fresh))
  /\ (trim (glyph [194; 160; 226; 128; 131; 32]) = EmptyString
      /\ sendMessage (handle (InputText (glyph [194; 160; 226; 128; 131; 32])) fresh)
         = (Ok tt, handle (InputText (glyph [194; 160; 226; 128; 131; 32])) fresh)).
Proof.
  split; (split; [reflexivity |]).
  - apply (sendMessage_rejected (ask "What is GST?" fresh)).
    left. reflexivity.
  - apply (sendMessage_rejected
             (handle (InputText (glyph [194; 160; 226; 128; 131; 32])) fresh)).
    right. reflexivity.
Defined.

(** ** What [sendMessage] does, in one equation per part *)

Ltac run_m :=
  unfold awaited;
  unfold exec, bindM, gets, modify, ret, lift, throw, try_catch, finally;
  cbn [fst snd].

Lemma addMessage_ok (content : JSVal) (isUser : bool) (sources : JSVal)
      (html : string) (w : Widget) :
  sourcesHTML_of (match sources with VUndefined => VNull | s => s end) = Ok html ->
  addMessage content isUser sources w =
  (Ok tt, set_chat_messages
            (chat_messages w ++ [message_node isUser (ToString content) html]) w).
Proof. intros H. unfold addMessage. run_m. rewrite H. reflexivity. Qed.

Lemma addMessage_throw (content : JSVal) (isUser : bool) (sources : JSVal)
      (e : Error) (w : Widget) :
  sourcesHTML_of (match sources with VUndefined => VNull | s => s end) = Throw e ->
  addMessage content isUser sources w = (Throw e, w).
Proof. intros H. unfold addMessage. run_m. rewrite H. reflexivity. Qed.

Lemma addMessage_plain (content : JSVal) (isUser : bool) (w : Widget) :
  addMessage content isUser VUndefined w =
  (Ok tt, set_chat_messages
            (chat_messages w ++ [message_node isUser (ToString content) EmptyString]) w).
Proof. apply addMessage_ok. reflexivity. Qed.

Lemma sendMessage_admitted (w : Widget) :
  isLoading w = false -> trim (input_value w) <> EmptyString ->
  sendMessage w = (Ok tt, started w).
Proof.
  intros HL HT. apply is_empty_false in HT.
  unfold sendMessage. unfold bindM at 1. unfold gets at 1.
  unfold bindM at 1. unfold gets at 1. rewrite HT, HL. cbn [orb].
  unfold bindM at 1. rewrite addMessage_plain.
  reflexivity.
Qed.

Lemma sendMessage_settled_run (o : Settled) (w : Widget) :
  sendMessage_settled o w = (Ok tt, settle_with (settled_reply o) w).
Proof.
  unfold sendMessage_settled, settle_with, settled_reply, rendered_reply.
  destruct o as [e | st e | [st data]]; [reflexivity | reflexivity |].
  unfold addMessage. run_m. cbn [status body].
  destruct (ok st).
  - destruct (getProp data "response") as [text | e]; [| reflexivity].
    destruct (getProp data "sources") as [sources | e]; [| reflexivity].
    cbn [bind].
    destruct (sourcesHTML_of match sources with VUndefined => VNull | _ => sources end)
      as [html | e]; reflexivity.
  - destruct (getProp data "detail") as [d | e]; reflexivity.
Qed.

Lemma settle_with_fields (reply : Node * bool) (w : Widget) :
  let w' := settle_with reply w in
  isLoading w' = false
  /\ apiBase w' = apiBase w
  /\ webSearchEnabled w' = webSearchEnabled w
  /\ sessionId w' = sessionId w
  /\ isOpen w' = isOpen w
  /\ chat_messages w' = chat_messages w ++ [fst reply]
  /\ sent w' =
     sent w ++ (if snd reply then [GET (ToString (apiBase w) +:+ "/health")] else []).
Proof.
  destruct reply as [n [|]]; unfold settle_with; cbn [fst snd];
    repeat split; try reflexivity.
  cbn. symmetry. apply app_nil_r.
Qed.

Lemma exec_settled (o : Settled) (w : Widget) :
  exec (sendMessage_settled o) w = settle_with (settled_reply o) w.
Proof. unfold exec. rewrite sendMessage_settled_run. reflexivity. Qed.




(** ** The health probe *)

Lemma ok_spec (st : Z) : ok st = true <-> (200 <= st <= 299)%Z.
Proof. unfold ok. rewrite andb_true_iff, !Z.leb_le. reflexivity. Qed.



Lemma checkAPIHealth_settled_run (o : Settled) (w : Widget) :
  exec (checkAPIHealth_settled o) w =
  if healthy_b o
  then set_connection_class "ca-status-online" (set_connection_text "Online" w)
  else set_connection_class "ca-status-offline" (set_connection_text "Offline" w).
Proof.
  unfold checkAPIHealth_settled, healthy_b.
  destruct o as [e | st e | [st data]]; [reflexivity | reflexivity |].
  run_m. cbn [status body].
  destruct (ok st); [| reflexivity].
  destruct (getProp data "status") as [v | e]; [| reflexivity].
  cbn [andb]. destruct (strict_eq_prim v (VStr "healthy")); reflexivity.
Qed.


(** ** The constructor *)

Lemma strict_eq_prim_false (v : JSVal) :
  strict_eq_prim v (VBool false) = true <-> v = VBool false.
Proof.
  destruct v as [| | [|] | | | |]; simpl; split; congruence.
Qed.

Lemma init_webSearchEnabled (base : JSVal) (enabled : bool) (sid : string) :
  webSearchEnabled (init base enabled sid) = enabled.
Proof. reflexivity. Qed.

(** C10. For every options object the constructor succeeds and sets
    [webSearchEnabled] to true unless the property [webSearchEnabled] of
    the options is the boolean [false]: the flag is false exactly for
    that value, and true for every other one, a missing property, [0],
    [null], [undefined], the empty string and the string ["false"]
    included. *)
Theorem webSearchEnabled_unless_false
        (fields : list (string * JSVal)) (now : Z) (random36 : string) :
  exists w,
    construct (VObj fields) now random36 = Ok w
    /\ (webSearchEnabled w = false <->
        lookup_field "webSearchEnabled" fields = VBool false)
    /\ (webSearchEnabled w = true <->
        lookup_field "webSearchEnabled" fields <> VBool false).
Proof.
  unfold construct. cbn [getProp bind].
  eexists. split; [reflexivity |].
  rewrite init_webSearchEnabled.
  pose proof (strict_eq_prim_false (lookup_field "webSearchEnabled" fields)) as H.
  destruct (strict_eq_prim (lookup_field "webSearchEnabled" fields) (VBool false));
    cbn [negb]; split; split; intros G; try congruence.
  - apply H. reflexivity.
  - exfalso. apply G. apply H. reflexivity.
  - exfalso. assert (true = false) by (symmetry; apply H; exact G). discriminate.
  - intros E. apply H in E. discriminate.
Qed.

Example webSearchEnabled_falsy_values :
  map (fun v => match construct (VObj [("webSearchEnabled", v)]) 0 "0.1" with
                | Ok w => Some (webSearchEnabled w)
                | Throw _ => None
                end)
      [VNum "0"; VNull; VUndefined; VStr EmptyString; VStr "false"; VBool true; VBool false]
  = [Some true; Some true; Some true; Some true; Some true; Some true; Some false].
Proof. reflexivity. Qed.

Example webSearchEnabled_omitted :
  (match construct VUndefined 0 "0.1" with
   | Ok w => Some (webSearchEnabled w)
   | Throw _ => None
   end) = Some true
  /\ construct page_options 1700000000000 "0.4fzyo82mvyr" = Ok fresh.
Proof. split; reflexivity. Qed.

(** ** Rendering of sources *)

Lemma mapM_Forall2 {A B : Type} (f : A -> Result B) (l : list A) (ys : list B) :
  mapM f l = Ok ys -> Forall2 (fun x y => f x = Ok y) l ys.
Proof.
  revert ys. induction l as [| x l IH]; intros ys; simpl.
  - intros H. injection H as <-. constructor.
  - destruct (f x) as [y | e] eqn:Hx; simpl; [| discriminate].
    destruct (mapM f l) as [ys' | e]; simpl; [| discriminate].
    intros H. injection H as <-. constructor; auto.
Qed.

Lemma createSourcesHTML_array (items : list JSVal) :
  createSourcesHTML (VArr items) =
  match items with
  | [] => Ok EmptyString
  | _ => let* parts := mapM sourceItemHTML (take 3 items) in
         Ok (sources_block (join_empty parts))
  end.
Proof. destruct items; reflexivity. Qed.

(** C7. Of the sources attached to a message, whatever their number, the
    markup holds the first three at most, in the order in which they were
    supplied: [createSourcesHTML] gives for an array what it gives for
    its first three items, and so does [addMessage], so items past the
    third neither show nor fail; and when those items render, the block
    holds one part per item, [min 3 n] of them, the i-th part being the
    rendering of the i-th item. *)
Theorem sources_first_three (items : list JSVal) :
  createSourcesHTML (VArr items) = createSourcesHTML (VArr (take 3 items))
  /\ (forall content w,
        addMessage content false (VArr items) w
        = addMessage content false (VArr (take 3 items)) w)
  /\ take 3 items `prefix_of` items
  /\ forall parts,
       mapM sourceItemHTML (take 3 items) = Ok parts ->
       length parts = Nat.min 3 (length items)
       /\ length parts <= 3
       /\ Forall2 (fun item part => sourceItemHTML item = Ok part)
                  (take 3 items) parts
       /\ (items <> [] ->
           createSourcesHTML (VArr items) = Ok (sources_block (join_empty parts))).
Proof.
  assert (E : createSourcesHTML (VArr items) = createSourcesHTML (VArr (take 3 items))).
  { rewrite !createSourcesHTML_array, take_take. destruct items; reflexivity. }
  split; [exact E |]. split; [| split].
  - intros content w. unfold addMessage, sourcesHTML_of. cbn [truthy].
    rewrite E. reflexivity.
  - apply prefix_take.
  - intros parts H. pose proof (mapM_Forall2 _ _ _ H) as F.
    pose proof (Forall2_length _ _ _ F) as L. rewrite length_take in L.
    repeat split.
    + lia.
    + lia.
    + exact F.
    + intros Hne. rewrite createSourcesHTML_array.
      destruct items; [congruence |]. rewrite H. reflexivity.
Qed.

Lemma sources_first_three_witness :
  createSourcesHTML
    (VArr [VObj [("type", VStr "web"); ("url", VStr "https://a"); ("title", VStr "A")];
           VObj [("type", VStr "document"); ("source", VStr "B")];
           VObj [("source", VStr "C")];
           VNull;
           VObj [("source", VStr "E")]])
  = Ok (sources_block
          (join_empty [web_item "https://a" "A"; doc_item "B"; doc_item "C"])).
Proof.
  refine (proj2 (proj2 (proj2
            (proj2 (proj2 (proj2 (sources_first_three _))) _ _))) _).
  - reflexivity.
  - discriminate.
Defined.


Lemma filled_str (s : string) : filled (VStr s) <-> s <> EmptyString.
Proof. unfold filled. destruct s; simpl; split; congruence. Qed.

Lemma not_filled_missing : ~ filled VUndefined.
Proof. unfold filled. simpl. discriminate. Qed.


(** A source that is not an object has none of the fields, a source that
    is [null] has no field to read. *)
Lemma sourceItemHTML_other (source : JSVal) :
  match source with
  | VObj _ => True
  | VUndefined | VNull => exists e, sourceItemHTML source = Throw e
  | _ => sourceItemHTML source = Ok (doc_item "Document")
  end.
Proof. destruct source; try reflexivity; try exact I; eexists; reflexivity. Qed.






(** ** The reply to a chat request *)

Lemma sourcesHTML_of_default (sources : JSVal) :
  sourcesHTML_of (match sources with VUndefined => VNull | _ => sources end)
  = sourcesHTML_of sources.
Proof. destruct sources; reflexivity. Qed.

Lemma undefined_is_no_failure_notice : ~ failure_notice "undefined".
Proof.
  intros [[d H] | [e H]]; unfold error_notice, offline_notice in H;
    cbn [String.append] in H; discriminate H.
Qed.

Lemma last_node_eq (l : list Node) (a b : Node) : l ++ [a] = l ++ [b] -> a = b.
Proof. intros H. apply app_inv_head in H. congruence. Qed.

Lemma undefined_node_is_no_notice (html text : string) :
  failure_notice text -> message_node false "undefined" html <> notice_node text.
Proof.
  intros F H. apply (f_equal innerHTML) in H.
  unfold notice_node, message_node, innerHTML in H.
  destruct F as [[d ->] | [e ->]];
    unfold message_html, error_notice, offline_notice in H;
    cbv -[ToString or_else message] in H; discriminate H.
Qed.

(** C4, as the code has it.  A 2xx response whose parsed body lacks the
    [response] field is not handled as a failure.  When the sources of
    the body render, it is handled as a success: one bot message is
    appended whose text is the missing field as a template prints it,
    [undefined], with the sources of the body, and a health probe
    follows; the text is neither of the failure notices.  A failure
    notice appears only when the success branch throws: when the sources
    of the body do not render, and when the body is [null] and has no
    field to read; then the offline notice is appended and no probe is
    issued.  In each case the loading flag is released. *)
Theorem missing_response_is_rendered
        (st : Z) (data sources : JSVal) (w : Widget) :
  (200 <= st <= 299)%Z ->
  getProp data "response" = Ok VUndefined ->
  getProp data "sources" = Ok sources ->
  let w' := exec (sendMessage_settled (Body (mkResponse st data))) w in
  let wn := exec (sendMessage_settled (Body (mkResponse st VNull))) w in
  (forall html,
      sourcesHTML_of sources = Ok html ->
      chat_messages w' = chat_messages w ++ [message_node false "undefined" html]
      /\ sent w' = sent w ++ [GET (ToString (apiBase w) +:+ "/health")])
  /\ (forall e,
        sourcesHTML_of sources = Throw e ->
        chat_messages w' = chat_messages w ++ [notice_node (offline_notice e)]
        /\ sent w' = sent w)
  /\ ~ failure_notice "undefined"
  /\ isLoading w' = false
  /\ chat_messages wn =
     chat_messages w ++ [notice_node (offline_notice (cannot_read "null" "response"))]
  /\ sent wn = sent w
  /\ isLoading wn = false.
Proof.
  intros Hst Hr Hs w' wn. apply ok_spec in Hst.
  assert (R : settled_reply (Body (mkResponse st data))
              = match sourcesHTML_of sources with
                | Ok html => (message_node false "undefined" html, true)
                | Throw e => (notice_node (offline_notice e), false)
                end).
  { unfold settled_reply, rendered_reply. cbn [status body].
    rewrite Hst, Hr, Hs. cbn [bind]. rewrite sourcesHTML_of_default.
    destruct (sourcesHTML_of sources); reflexivity. }
  assert (N : settled_reply (Body (mkResponse st VNull))
              = (notice_node (offline_notice (cannot_read "null" "response")), false)).
  { unfold settled_reply, rendered_reply. cbn [status body].
    rewrite Hst. reflexivity. }
  unfold w', wn. rewrite !exec_settled.
  destruct (settle_with_fields (settled_reply (Body (mkResponse st data))) w)
    as (H1 & _ & _ & _ & _ & H2 & H3).
  destruct (settle_with_fields (settled_reply (Body (mkResponse st VNull))) w)
    as (H6 & _ & _ & _ & _ & H4 & H5).
  cbv zeta in H1, H2, H3, H4, H5, H6. rewrite N in H4, H5, H6 |- *.
  cbn [fst snd] in H4, H5. rewrite app_nil_r in H5.
  rewrite R in H2, H3 |- *.
  split; [| split; [| split; [| split; [| split; [| split]]]]].
  - intros html Hh. rewrite Hh in H2, H3 |- *. auto.
  - intros e He. rewrite He in H2, H3 |- *. cbn [fst snd] in H2, H3.
    rewrite app_nil_r in H3. auto.
  - apply undefined_is_no_failure_notice.
  - exact H1.
  - exact H4.
  - exact H5.
  - exact H6.
Qed.

Lemma missing_response_is_rendered_witness :
  chat_messages
    (exec (sendMessage_settled
             (Body (mkResponse 200 (VObj [("sources", VArr [])]))))
          (ask "What is GST?" fresh))
  = chat_messages (ask "What is GST?" fresh)
      ++ [message_node false "undefined" EmptyString]
  /\ chat_messages
       (exec (sendMessage_settled
                (Body (mkResponse 200 (VObj [("sources", VArr [VNull])]))))
             (ask "What is GST?" fresh))
     = chat_messages (ask "What is GST?" fresh)
         ++ [notice_node (offline_notice (cannot_read "null" "type"))].
Proof.
  split.
  - refine (proj1 (proj1 (missing_response_is_rendered 200
                            (VObj [("sources", VArr [])]) (VArr [])
                            (ask "What is GST?" fresh) _ _ _) EmptyString _)).
    + lia.
    + reflexivity.
    + reflexivity.
    + reflexivity.
  - refine (proj1 (proj1 (proj2 (missing_response_is_rendered 200
                            (VObj [("sources", VArr [VNull])]) (VArr [VNull])
                            (ask "What is GST?" fresh) _ _ _))
                     (cannot_read "null" "type") _)).
    + lia.
    + reflexivity.
    + reflexivity.
    + reflexivity.
Defined.

(** C4 as stated fails: for the body [{}] with status 200 the message
    appended is no failure notice. *)
Lemma empty_body_is_no_failure :
  let w := ask "What is GST?" fresh in
  let w' := handle (ChatSettled (Body (mkResponse 200 (VObj [])))) w in
  getProp (VObj []) "response" = Ok VUndefined
  /\ ~ (exists text,
          failure_notice text
          /\ chat_messages w' = chat_messages w ++ [notice_node text]).
Proof.
  cbv zeta. split; [reflexivity |].
  intros (text & F & H).
  change (handle (ChatSettled (Body (mkResponse 200 (VObj [])))) (ask "What is GST?" fresh))
    with (exec (sendMessage_settled (Body (mkResponse 200 (VObj []))))
               (ask "What is GST?" fresh)) in H.
  rewrite exec_settled in H.
  destruct (settle_with_fields (settled_reply (Body (mkResponse 200 (VObj []))))
              (ask "What is GST?" fresh)) as (_ & _ & _ & _ & _ & H2 & _).
  cbv zeta in H2. rewrite H2 in H. apply last_node_eq in H.
  exact (undefined_node_is_no_notice EmptyString text F H).
Qed.

(** ** Health probes after an exchange *)





(** ** The transcript of [CAChatbotWidget] *)

Lemma exec_sendMessage_cases (w : Widget) :
  exec sendMessage w = w \/ exec sendMessage w = started w.
Proof.
  destruct (is_empty (trim (input_value w)) || isLoading w)%bool eqn:G.
  - left. unfold exec. rewrite (sendMessage_guard w G). reflexivity.
  - right. apply orb_false_iff in G. destruct G as [G1 G2].
    unfold exec. rewrite sendMessage_admitted; [reflexivity | exact G2 |].
    apply is_empty_false. exact G1.
Qed.









(** ** The transcript of [CAEmbedWidget] *)














(** C3 at the failing input.  In [CAEmbedWidget] a send whose request
    settles with status 200 and the body [null] removes the placeholder
    in the [try] block, throws on [data.response], and removes the last
    child once more in the [catch]: the user message is gone, and the
    exchange has added one message to the transcript, the offline
    notice, instead of two. *)
Lemma embed_null_body_drops_user_message :
  let w := Embed.exchange "What is GST?" (Body (mkResponse 200 VNull)) Embed.fresh in
  Embed.messages (Embed.ask "What is GST?" Embed.fresh) =
    [Embed.greeting; Embed.message_node true "What is GST?"; Embed.thinking]
  /\ Embed.messages w = [Embed.greeting; Embed.offline_node]
  /\ length (Embed.messages w) = length (Embed.messages Embed.fresh) + 1
  /\ ~ In (Embed.message_node true "What is GST?") (Embed.messages w).
Proof.
  cbv zeta. split; [vm_compute; reflexivity |].
  split; [vm_compute; reflexivity |].
  split; [vm_compute; reflexivity |].
  vm_compute. intros [H | [H | []]]; discriminate H.
Qed.

(** * Further properties of the widgets *)

(** ** Tools *)

Lemma exec_finally {S A : Type} (m : M S A) (f : M S unit) (s : S) :
  exec (finally m f) s = exec f (exec m s).
Proof.
  unfold exec, finally. destruct (m s) as [r s']. cbn [snd].
  destruct (f s') as [[u | e] s'']; reflexivity.
Qed.

Lemma trimStart_eq (s : string) :
  trimStart s = match space_at s with Some r => trimStart r | None => s end.
Proof.
  destruct s as [| c1 [| c2 [| c3 s3]]]; cbn [trimStart space_at];
    try reflexivity.
  - destruct (is_space c1); reflexivity.
  - destruct (is_space c1); [reflexivity |]. destruct (is_space2 c1 c2); reflexivity.
  - destruct (is_space c1); [reflexivity |]. destruct (is_space2 c1 c2); [reflexivity |].
    destruct (is_space3 c1 c2 c3); reflexivity.
Qed.

Lemma blank_eq (s : string) :
  blank s = match s with
            | EmptyString => true
            | _ => match space_at s with Some r => blank r | None => false end
            end.
Proof.
  destruct s as [| c1 [| c2 [| c3 s3]]]; cbn [blank space_at];
    try reflexivity.
  - destruct (is_space c1); reflexivity.
  - destruct (is_space c1); [reflexivity |]. destruct (is_space2 c1 c2); reflexivity.
  - destruct (is_space c1); [reflexivity |]. destruct (is_space2 c1 c2); [reflexivity |].
    destruct (is_space3 c1 c2 c3); reflexivity.
Qed.

Lemma append_cons (c : ascii) (x k : string) :
  String c x +:+ k = String c (x +:+ k).
Proof. reflexivity. Qed.

Lemma append_nil (k : string) : EmptyString +:+ k = k.
Proof. reflexivity. Qed.

Lemma space_at_app (x k r : string) :
  space_at x = Some r -> space_at (x +:+ k) = Some (r +:+ k).
Proof.
  destruct x as [| c1 [| c2 [| c3 s3]]];
    rewrite ?append_cons, ?append_nil; unfold space_at; try discriminate.
  - destruct (is_space c1); [| discriminate]. intros H. injection H as <-.
    reflexivity.
  - destruct (is_space c1); [intros H; injection H as <-; reflexivity |].
    destruct (is_space2 c1 c2); [| discriminate].
    intros H. injection H as <-. reflexivity.
  - destruct (is_space c1); [intros H; injection H as <-; reflexivity |].
    destruct (is_space2 c1 c2); [intros H; injection H as <-; reflexivity |].
    destruct (is_space3 c1 c2 c3); [| discriminate].
    intros H. injection H as <-. reflexivity.
Qed.

Lemma space_at_length (s r : string) :
  space_at s = Some r -> String.length r < String.length s.
Proof.
  destruct s as [| c1 [| c2 [| c3 s3]]]; cbn [space_at]; try discriminate.
  - destruct (is_space c1); [| discriminate]. intros H. injection H as <-. cbn. lia.
  - destruct (is_space c1); [intros H; injection H as <-; cbn; lia |].
    destruct (is_space2 c1 c2); [| discriminate].
    intros H. injection H as <-. cbn. lia.
  - destruct (is_space c1); [intros H; injection H as <-; cbn; lia |].
    destruct (is_space2 c1 c2); [intros H; injection H as <-; cbn; lia |].
    destruct (is_space3 c1 c2 c3); [| discriminate].
    intros H. injection H as <-. cbn. lia.
Qed.

(** Induction on a text along the white space characters at its head. *)
Lemma space_ind (P : string -> Prop) :
  (forall s, (forall r, space_at s = Some r -> P r) -> P s) -> forall s, P s.
Proof.
  intros H s. remember (String.length s) as n eqn:E.
  revert s E. induction n as [n IH] using lt_wf_ind. intros s E.
  apply H. intros r Hr. apply (IH (String.length r)); [| reflexivity].
  subst n. apply space_at_length. exact Hr.
Qed.

Lemma blank_app (x k : string) : blank x = true -> blank (x +:+ k) = blank k.
Proof.
  induction x as [x IH] using space_ind. rewrite (blank_eq x).
  destruct x as [| c x']; [reflexivity |].
  destruct (space_at (String c x')) as [r |] eqn:E; [| discriminate].
  intros B. rewrite (blank_eq (String c x' +:+ k)).
  rewrite (space_at_app _ k r E). rewrite append_cons.
  apply IH; [reflexivity | exact B].
Qed.

Lemma trimEnd_split (s : string) :
  exists k, s = trimEnd s +:+ k /\ blank k = true.
Proof.
  induction s as [| c s (k & E & B)]; [exists EmptyString; split; reflexivity |].
  cbn [trimEnd]. destruct (blank (String c s)) eqn:Bs.
  - exists (String c s). split; [reflexivity | exact Bs].
  - exists k. split; [| exact B]. rewrite append_cons, <- E. reflexivity.
Qed.

Lemma trimEnd_idem (s : string) : trimEnd (trimEnd s) = trimEnd s.
Proof.
  induction s as [| c s IH]; [reflexivity |].
  cbn [trimEnd]. destruct (blank (String c s)) eqn:Bs; [reflexivity |].
  cbn [trimEnd]. destruct (blank (String c (trimEnd s))) eqn:Bt.
  - exfalso. destruct (trimEnd_split s) as (k & E & B).
    pose proof (blank_app (String c (trimEnd s)) k Bt) as H.
    rewrite append_cons, <- E, B in H. congruence.
  - rewrite IH. reflexivity.
Qed.

Lemma trimStart_no_space (s : string) : space_at (trimStart s) = None.
Proof.
  induction s as [s IH] using space_ind. rewrite trimStart_eq.
  destruct (space_at s) as [r |] eqn:E; [apply IH; reflexivity | exact E].
Qed.

Lemma trim_idem (s : string) : trim (trim s) = trim s.
Proof.
  unfold trim. pose proof (trimStart_no_space s) as N.
  destruct (trimEnd_split (trimStart s)) as (k & E & _).
  assert (F : space_at (trimEnd (trimStart s)) = None).
  { destruct (space_at (trimEnd (trimStart s))) as [r |] eqn:F; [| reflexivity].
    apply (space_at_app _ k) in F. rewrite <- E in F. congruence. }
  rewrite (trimStart_eq (trimEnd (trimStart s))), F. apply trimEnd_idem.
Qed.




(** ** The page and the fields *)








(** ** Keyboard and visibility *)

Lemma onKeyDownDocument_other (key : string) (w : Widget) :
  key <> "Escape" -> exec (onKeyDownDocument key) w = w.
Proof.
  intros H. apply String.eqb_neq in H.
  unfold onKeyDownDocument. run_m. rewrite H. reflexivity.
Qed.

(** X2. The keys.  Enter pressed in the textarea without Shift runs
    [sendMessage], and in a consistent page does what a click on the send
    button does; Enter with Shift, or outside the textarea, does nothing.
    Escape closes the widget when it is open and does nothing when it is
    closed.  Every other key does nothing. *)
Theorem keyboard_shortcuts (inTextarea shiftKey : bool) (key : string) (w : Widget) :
  handle (KeyDown true "Enter" false) w = exec sendMessage w
  /\ (page_consistent w -> handle (KeyDown true "Enter" false) w = handle ClickSend w)
  /\ handle (KeyDown inTextarea "Enter" true) w = w
  /\ handle (KeyDown false "Enter" shiftKey) w = w
  /\ (isOpen w = true ->
      handle (KeyDown inTextarea "Escape" shiftKey) w = exec closeChat w)
  /\ (isOpen w = false -> handle (KeyDown inTextarea "Escape" shiftKey) w = w)
  /\ (key <> "Enter" -> key <> "Escape" ->
      handle (KeyDown inTextarea key shiftKey) w = w).
Proof.
  assert (E : handle (KeyDown true "Enter" false) w = exec sendMessage w).
  { cbn [handle]. unfold onKeyDownInput. cbn [String.eqb Ascii.eqb Bool.eqb andb negb].
    apply onKeyDownDocument_other. discriminate. }
  split; [exact E |]. split; [| split; [| split; [| split; [| split]]]].
  - intros (_ & H2 & _). rewrite E. cbn [handle].
    destruct (send_disabled w) eqn:D; [| reflexivity].
    unfold exec. rewrite sendMessage_guard; [reflexivity |].
    rewrite <- H2. reflexivity.
  - cbn [handle]. unfold onKeyDownInput.
    cbn [String.eqb Ascii.eqb Bool.eqb andb negb].
    destruct inTextarea; apply onKeyDownDocument_other; discriminate.
  - cbn [handle]. apply onKeyDownDocument_other. discriminate.
  - intros O. cbn [handle]. unfold onKeyDownInput.
    cbn [String.eqb Ascii.eqb Bool.eqb andb].
    assert (W : (if inTextarea then exec (ret tt) w else w) = w)
      by (destruct inTextarea; reflexivity).
    rewrite W. unfold onKeyDownDocument, exec at 1, bindM, gets.
    cbn [String.eqb Ascii.eqb Bool.eqb andb]. rewrite O. reflexivity.
  - intros O. cbn [handle]. unfold onKeyDownInput.
    cbn [String.eqb Ascii.eqb Bool.eqb andb].
    assert (W : (if inTextarea then exec (ret tt) w else w) = w)
      by (destruct inTextarea; reflexivity).
    rewrite W. unfold onKeyDownDocument. run_m.
    cbn [String.eqb Ascii.eqb Bool.eqb andb]. rewrite O. reflexivity.
  - intros H1 H2. cbn [handle]. unfold onKeyDownInput.
    apply String.eqb_neq in H1. rewrite H1. cbn [andb].
    assert (W : (if inTextarea then exec (ret tt) w else w) = w)
      by (destruct inTextarea; reflexivity).
    rewrite W. apply onKeyDownDocument_other. exact H2.
Qed.

Lemma keyboard_shortcuts_witness :
  isOpen (handle ClickToggle fresh) = true
  /\ handle (KeyDown true "Escape" false) (handle ClickToggle fresh) = fresh.
Proof.
  split; [reflexivity |].
  rewrite (proj1 (proj2 (proj2 (proj2 (proj2
             (keyboard_shortcuts true false "Escape" (handle ClickToggle fresh))))))
             eq_refl).
  reflexivity.
Defined.

(** X3. Opening and closing keep the conversation.  The toggle button,
    the close button and [openChat] change nothing but the open flag and
    the class of the interface: the session, the transcript, the text
    being typed, the loading flag and the requests stay as they were.  In
    a page whose interface agrees with the open flag, two clicks on the
    toggle button give back the very same state, and so does closing an
    open widget and opening it again. *)
Theorem visibility_keeps_conversation (w : Widget) :
  (forall w',
      w' = handle ClickToggle w \/ w' = handle ClickClose w \/ w' = exec openChat w ->
      sessionId w' = sessionId w /\ chat_messages w' = chat_messages w
      /\ input_value w' = input_value w /\ isLoading w' = isLoading w
      /\ sent w' = sent w /\ webSearchEnabled w' = webSearchEnabled w)
  /\ isOpen (handle ClickToggle w) = negb (isOpen w)
  /\ isOpen (handle ClickClose w) = false
  /\ (interface_open w = isOpen w ->
      handle ClickToggle (handle ClickToggle w) = w)
  /\ (interface_open w = isOpen w -> isOpen w = true ->
      exec openChat (handle ClickClose w) = w).
Proof.
  split; [| split; [| split; [| split]]].
  - intros w' [-> | [-> | ->]]; cbn [handle];
      try (unfold toggleChat; run_m; destruct (isOpen w));
      repeat split.
  - cbn [handle]. unfold toggleChat. run_m. destruct (isOpen w); reflexivity.
  - reflexivity.
  - intros H. destruct w as [a b c o l i x1 x2 x3 x4 x5 x6 x7 x8 x9].
    cbn in H. subst i. destruct o; reflexivity.
  - intros H O. destruct w as [a b c o l i x1 x2 x3 x4 x5 x6 x7 x8 x9].
    cbn in H, O. subst i o. reflexivity.
Qed.

Lemma visibility_keeps_conversation_witness :
  handle ClickToggle (handle ClickToggle (ask "What is GST?" fresh))
  = ask "What is GST?" fresh.
Proof.
  apply (proj1 (proj2 (proj2 (proj2
           (visibility_keeps_conversation (ask "What is GST?" fresh)))))).
  reflexivity.
Defined.



(** ** Requests *)

Lemma exec_sendMessage_admitted_or_not (w : Widget) :
  exec sendMessage w = w
  \/ (isLoading w = false /\ trim (input_value w) <> EmptyString
      /\ exec sendMessage w = started w).
Proof.
  destruct (is_empty (trim (input_value w)) || isLoading w)%bool eqn:G.
  - left. unfold exec. rewrite (sendMessage_guard w G). reflexivity.
  - right. apply orb_false_iff in G. destruct G as [G1 G2].
    apply is_empty_false in G1. repeat split; try assumption.
    unfold exec. rewrite sendMessage_admitted; [reflexivity | exact G2 | exact G1].
Qed.

(** What one event does to the requests, the loading flag and the
    transcript: nothing is issued, or a chat request is issued from a
    state that was not loading and is loading afterwards, or a request
    settles and at most a probe is issued. *)
Lemma handle_requests (ev : Event) (w : Widget) :
  (sent (handle ev w) = sent w
   /\ (settles ev = false ->
       isLoading (handle ev w) = isLoading w
       /\ chat_messages (handle ev w) = chat_messages w))
  \/ (settles ev = false /\ isLoading w = false /\ isLoading (handle ev w) = true
      /\ exists text,
           trim text <> EmptyString
           /\ sent (handle ev w) =
              sent w ++ [POST (ToString (apiBase w) +:+ "/api/chat") (trim text)
                              (webSearchEnabled w) (sessionId w)])
  \/ (settles ev = true
      /\ sent (handle ev w) = sent w ++ [GET (ToString (apiBase w) +:+ "/health")]).
Proof.
  assert (S : forall v,
             (sent (exec sendMessage v) = sent v
              /\ isLoading (exec sendMessage v) = isLoading v
              /\ chat_messages (exec sendMessage v) = chat_messages v)
             \/ (isLoading v = false /\ isLoading (exec sendMessage v) = true
                 /\ exists text,
                      trim text <> EmptyString
                      /\ sent (exec sendMessage v) =
                         sent v ++ [POST (ToString (apiBase v) +:+ "/api/chat")
                                         (trim text) (webSearchEnabled v)
                                         (sessionId v)])).
  { intros v. destruct (exec_sendMessage_admitted_or_not v) as [-> | (L & T & ->)].
    - left. auto.
    - right. split; [exact L |]. split; [reflexivity |].
      exists (input_value v). split; [exact T | reflexivity]. }
  destruct ev as [| | | | text | inTextarea key shiftKey | o | o]; cbn [handle settles].
  - left. unfold toggleChat. run_m. destruct (isOpen w); auto.
  - left. auto.
  - left. unfold toggleWebSearch. run_m. cbn. destruct (webSearchEnabled w); auto.
  - destruct (send_disabled w); [left; auto |].
    destruct (S w) as [(H1 & H2 & H3) | (H1 & H2 & H3)]; [left; auto | right; left; auto].
  - left. auto.
  - assert (D : forall v, sent (exec (onKeyDownDocument key) v) = sent v
                          /\ isLoading (exec (onKeyDownDocument key) v) = isLoading v
                          /\ chat_messages (exec (onKeyDownDocument key) v)
                             = chat_messages v).
    { intros v. unfold onKeyDownDocument. run_m.
      destruct (String.eqb key "Escape" && isOpen v); auto. }
    set (w1 := if inTextarea then exec (onKeyDownInput key shiftKey) w else w).
    destruct (D w1) as (D1 & D2 & D3). rewrite D1, D2, D3.
    unfold w1, onKeyDownInput. destruct inTextarea; [| left; auto].
    destruct (String.eqb key "Enter" && negb shiftKey); [| left; auto].
    destruct (S w) as [(H1 & H2 & H3) | (H1 & H2 & H3)]; [left; auto | right; left; auto].
  - rewrite exec_settled.
    destruct (settle_with_fields (settled_reply o) w) as (_ & _ & _ & _ & _ & _ & H).
    cbv zeta in H. destruct (snd (settled_reply o)).
    + right. right. auto.
    + left. split; [rewrite H; apply app_nil_r | discriminate].
  - left. rewrite checkAPIHealth_settled_run. destruct (healthy_b o); auto.
Qed.

(** X5. One chat request at a time.  While a request is in flight, no
    sequence of events without its settling issues any request or
    changes the transcript, and the widget stays loading: clicks on the
    send button, Enter, typing, toggles and the settling of health
    probes included.  And an event that issues a chat request finds the
    widget not loading and leaves it loading. *)
Theorem one_request_in_flight (evs : list Event) (ev : Event) (w : Widget) :
  (isLoading w = true ->
   Forall (fun e => settles e = false) evs ->
   isLoading (run evs w) = true
   /\ sent (run evs w) = sent w
   /\ chat_messages (run evs w) = chat_messages w)
  /\ (forall url m wse sid,
        sent (handle ev w) = sent w ++ [POST url m wse sid] ->
        isLoading w = false /\ isLoading (handle ev w) = true).
Proof.
  split.
  - intros L F. revert w L. unfold run.
    induction F as [| e evs He F IH]; intros w L; [auto |].
    cbn [fold_left].
    destruct (handle_requests e w) as [(H1 & H2) | [(_ & H & _) | (H & _)]];
      [| congruence | congruence].
    destruct (H2 He) as [H3 H4].
    destruct (IH (handle e w)) as (I1 & I2 & I3); [congruence |].
    rewrite I1, I2, I3. auto.
  - intros url m wse sid H.
    destruct (handle_requests ev w) as [(H1 & _) | [(_ & H1 & H2 & _) | (_ & H1)]].
    + exfalso. rewrite H1 in H. apply (f_equal (@length Request)) in H.
      rewrite length_app in H. cbn in H. lia.
    + auto.
    + exfalso. rewrite H1 in H. apply app_inv_head in H. discriminate H.
Qed.

Lemma one_request_in_flight_witness :
  sent (run [ClickSend; KeyDown true "Enter" false; InputText "PAN?"; ClickSend;
             HealthSettled (FetchFailed (mkError "Failed to fetch"))]
            (ask "What is GST?" fresh))
  = sent (ask "What is GST?" fresh).
Proof.
  refine (proj1 (proj2 (proj1 (one_request_in_flight _ ClickToggle _) _ _))).
  - reflexivity.
  - repeat constructor.
Defined.

Lemma handle_identity (ev : Event) (w : Widget) :
  apiBase (handle ev w) = apiBase w /\ sessionId (handle ev w) = sessionId w.
Proof.
  assert (S : forall v, apiBase (exec sendMessage v) = apiBase v
                        /\ sessionId (exec sendMessage v) = sessionId v).
  { intros v. destruct (exec_sendMessage_cases v) as [-> | ->]; auto. }
  destruct ev as [| | | | text | inTextarea key shiftKey | o | o]; cbn [handle].
  - unfold toggleChat. run_m. destruct (isOpen w); auto.
  - auto.
  - unfold toggleWebSearch. run_m. cbn. destruct (webSearchEnabled w); auto.
  - destruct (send_disabled w); [auto | apply S].
  - auto.
  - set (w1 := if inTextarea then exec (onKeyDownInput key shiftKey) w else w).
    assert (H1 : apiBase w1 = apiBase w /\ sessionId w1 = sessionId w).
    { unfold w1, onKeyDownInput. destruct inTextarea; [| auto].
      destruct (String.eqb key "Enter" && negb shiftKey); [apply S | auto]. }
    unfold onKeyDownDocument. run_m.
    destruct (String.eqb key "Escape" && isOpen w1); exact H1.
  - rewrite exec_settled.
    destruct (settle_with_fields (settled_reply o) w) as (_ & H1 & _ & H2 & _). auto.
  - rewrite checkAPIHealth_settled_run. destruct (healthy_b o); auto.
Qed.

Lemma handle_requests_ok (base : JSVal) (sid : string) (ev : Event) (w : Widget) :
  apiBase w = base -> sessionId w = sid ->
  Forall (request_ok base sid) (sent w) ->
  Forall (request_ok base sid) (sent (handle ev w)).
Proof.
  intros B I F.
  destruct (handle_requests ev w)
    as [(H & _) | [(_ & _ & _ & text & T & H) | (_ & H)]]; rewrite H.
  - exact F.
  - apply Forall_app. split; [exact F |]. constructor; [| constructor].
    cbn. rewrite B, I. repeat split; [exact T | apply trim_idem].
  - apply Forall_app. split; [exact F |]. constructor; [| constructor].
    cbn. rewrite B. reflexivity.
Qed.

(** X6. The session and the destination never change.  In every state
    reached from the construction the base address and the session
    identifier are the ones set by the constructor, and every request
    issued so far is a probe to [base/health] or a chat request to
    [base/api/chat] that carries this session identifier and a message
    that is not empty and has no white space around it.  The first
    request is the probe of [init]. *)
Theorem requests_keep_session
        (evs : list Event) (base : JSVal) (enabled : bool) (sid : string) :
  let w := run evs (init base enabled sid) in
  apiBase w = base
  /\ sessionId w = sid
  /\ Forall (request_ok base sid) (sent w)
  /\ [GET (ToString base +:+ "/health")] `prefix_of` sent w.
Proof.
  intros w.
  assert (P : forall v,
             (apiBase v = base /\ sessionId v = sid
              /\ Forall (request_ok base sid) (sent v)
              /\ [GET (ToString base +:+ "/health")] `prefix_of` sent v) ->
             let v' := run evs v in
             apiBase v' = base /\ sessionId v' = sid
             /\ Forall (request_ok base sid) (sent v')
             /\ [GET (ToString base +:+ "/health")] `prefix_of` sent v').
  { unfold run. induction evs as [| ev evs IH]; intros v H; [exact H |].
    cbn [fold_left]. apply IH. destruct H as (H1 & H2 & H3 & H4).
    destruct (handle_identity ev v) as [I1 I2].
    split; [congruence |]. split; [congruence |].
    split; [apply handle_requests_ok; assumption |].
    etransitivity; [exact H4 |].
    destruct (handle_requests ev v)
      as [(H & _) | [(_ & _ & _ & text & _ & H) | (_ & H)]]; rewrite H;
      [reflexivity | apply prefix_app_r; reflexivity | apply prefix_app_r; reflexivity]. }
  apply P. repeat split.
  - constructor; [reflexivity | constructor].
  - reflexivity.
Qed.

(** ** Sources that do not render *)







(** ** What the user reads after a request *)

Lemma settled_messages (o : Settled) (w : Widget) :
  chat_messages (exec (sendMessage_settled o) w)
  = chat_messages w ++ [fst (settled_reply o)]
  /\ sent (exec (sendMessage_settled o) w)
     = sent w ++ (if snd (settled_reply o)
                  then [GET (ToString (apiBase w) +:+ "/health")] else [])
  /\ isLoading (exec (sendMessage_settled o) w) = false.
Proof.
  rewrite exec_settled.
  destruct (settle_with_fields (settled_reply o) w) as (H1 & _ & _ & _ & _ & H2 & H3).
  auto.
Qed.

(** X9. A reply whose sources do not render is lost.  When a 2xx
    response carries a [response] text and [sources] that make
    [createSourcesHTML] throw, no message with the text is appended: the
    transcript gets the offline notice with the message of the
    exception, no probe is issued and the loading flag is released. *)
Theorem unrenderable_sources_lose_reply
        (st : Z) (data text sources : JSVal) (e : Error) (w : Widget) :
  (200 <= st <= 299)%Z ->
  getProp data "response" = Ok text ->
  getProp data "sources" = Ok sources ->
  sourcesHTML_of sources = Throw e ->
  let w' := exec (sendMessage_settled (Body (mkResponse st data))) w in
  chat_messages w' = chat_messages w ++ [notice_node (offline_notice e)]
  /\ sent w' = sent w
  /\ isLoading w' = false.
Proof.
  intros Hst Hr Hs He w'. apply ok_spec in Hst.
  assert (R : settled_reply (Body (mkResponse st data))
              = (notice_node (offline_notice e), false)).
  { unfold settled_reply, rendered_reply. cbn [status body].
    rewrite Hst, Hr, Hs. cbn [bind]. rewrite sourcesHTML_of_default, He.
    reflexivity. }
  destruct (settled_messages (Body (mkResponse st data)) w) as (H1 & H2 & H3).
  rewrite R in H1, H2. cbn [fst snd] in H1, H2. rewrite app_nil_r in H2.
  auto.
Qed.

Lemma unrenderable_sources_lose_reply_witness :
  chat_messages
    (exec (sendMessage_settled
             (Body (mkResponse 200 (VObj [("response", VStr "GST is...");
                                          ("sources", VArr [VNull])]))))
          (ask "What is GST?" fresh))
  = chat_messages (ask "What is GST?" fresh)
      ++ [notice_node (offline_notice (cannot_read "null" "type"))].
Proof.
  refine (proj1 (unrenderable_sources_lose_reply 200
                   (VObj [("response", VStr "GST is..."); ("sources", VArr [VNull])])
                   (VStr "GST is...") (VArr [VNull]) (cannot_read "null" "type")
                   (ask "What is GST?" fresh) _ _ _ _)).
  - lia.
  - reflexivity.
  - reflexivity.
  - reflexivity.
Defined.



(** X11. A success shows the reply as it came.  On a 2xx response whose
    body holds the text [response] and whose [sources] render, the
    message appended is a bot message with exactly this text and with
    the block of the sources of the body; there is no block when the
    body has no [sources], or [null], or an empty array.  A probe
    follows. *)
Theorem success_shows_reply
        (st : Z) (fields : list (string * JSVal)) (text html : string) (w : Widget) :
  (200 <= st <= 299)%Z ->
  lookup_field "response" fields = VStr text ->
  sourcesHTML_of (lookup_field "sources" fields) = Ok html ->
  let w' := exec (sendMessage_settled (Body (mkResponse st (VObj fields)))) w in
  chat_messages w' = chat_messages w ++ [message_node false text html]
  /\ sent w' = sent w ++ [GET (ToString (apiBase w) +:+ "/health")]
  /\ (lookup_field "sources" fields = VUndefined
      \/ lookup_field "sources" fields = VNull
      \/ lookup_field "sources" fields = VArr [] -> html = EmptyString).
Proof.
  intros Hst Hr Hs w'. apply ok_spec in Hst.
  assert (R : settled_reply (Body (mkResponse st (VObj fields)))
              = (message_node false text html, true)).
  { unfold settled_reply, rendered_reply. cbn [status body getProp].
    rewrite Hst, Hr. cbn [bind]. rewrite sourcesHTML_of_default, Hs.
    reflexivity. }
  destruct (settled_messages (Body (mkResponse st (VObj fields))) w) as (H1 & H2 & _).
  rewrite R in H1, H2. cbn [fst snd] in H1, H2.
  split; [exact H1 |]. split; [exact H2 |].
  intros [E | [E | E]]; rewrite E in Hs; cbv in Hs; congruence.
Qed.

Lemma success_shows_reply_witness :
  chat_messages
    (exec (sendMessage_settled
             (Body (mkResponse 200 (VObj [("response", VStr "GST is...");
                                          ("sources", VArr [])]))))
          (ask "What is GST?" fresh))
  = chat_messages (ask "What is GST?" fresh)
      ++ [message_node false "GST is..." EmptyString].
Proof.
  refine (proj1 (success_shows_reply 200
                   [("response", VStr "GST is..."); ("sources", VArr [])]
                   "GST is..." EmptyString (ask "What is GST?" fresh) _ _ _)).
  - lia.
  - reflexivity.
  - reflexivity.
Defined.

(** ** The connection status *)




(** ** The transcript from the start *)



(** ** [CAEmbedWidget]: loading flag, requests, page *)

Section Keeps.
Context {S : Type} (R : S -> S -> Prop).
Hypothesis R_refl : forall s, R s s.
Hypothesis R_trans : forall a b c, R a b -> R b c -> R a c.

Lemma keeps_ret {A : Type} (a : A) : keeps R (ret a).
Proof. intros s. apply R_refl. Qed.

Lemma keeps_throw {A : Type} (e : Error) : keeps R (@throw S A e).
Proof. intros s. apply R_refl. Qed.

Lemma keeps_lift {A : Type} (r : Result A) : keeps R (lift r).
Proof. intros s. apply R_refl. Qed.

Lemma keeps_gets {A : Type} (f : S -> A) : keeps R (gets f).
Proof. intros s. apply R_refl. Qed.

Lemma keeps_modify (f : S -> S) : (forall s, R s (f s)) -> keeps R (modify f).
Proof. intros H s. apply H. Qed.

Lemma keeps_bind {A B : Type} (m : M S A) (k : A -> M S B) :
  keeps R m -> (forall a, keeps R (k a)) -> keeps R (bindM m k).
Proof.
  intros Hm Hk s. unfold bindM. specialize (Hm s).
  destruct (m s) as [[a | e] s']; cbn [snd] in *; [| exact Hm].
  eapply R_trans; [exact Hm | apply Hk].
Qed.

Lemma keeps_try_catch {A : Type} (m : M S A) (h : Error -> M S A) :
  keeps R m -> (forall e, keeps R (h e)) -> keeps R (try_catch m h).
Proof.
  intros Hm Hh s. unfold try_catch. specialize (Hm s).
  destruct (m s) as [[a | e] s']; cbn [snd] in *; [exact Hm |].
  eapply R_trans; [exact Hm | apply Hh].
Qed.
End Keeps.

Lemma embed_frame_refl (w : Embed.Widget) : embed_frame w w.
Proof. repeat split. Qed.

Lemma embed_frame_trans (a b c : Embed.Widget) :
  embed_frame a b -> embed_frame b c -> embed_frame a c.
Proof.
  intros (A1 & A2 & A3 & A4 & A5) (B1 & B2 & B3 & B4 & B5).
  repeat split; congruence.
Qed.

Lemma embed_addMessage_keeps (content : JSVal) (isUser : bool) :
  keeps embed_frame (Embed.addMessage content isUser).
Proof. intros s. repeat split. Qed.

Lemma embed_removeLastChild_keeps : keeps embed_frame Embed.removeLastChild.
Proof.
  intros s. unfold Embed.removeLastChild. run_m.
  destruct (Embed.messages s); repeat split.
Qed.

Lemma embed_settled_frame (o : Settled) (w : Embed.Widget) :
  let w' := exec (Embed.sendMessage_settled o) w in
  Embed.isLoading w' = false
  /\ Embed.send_disabled w' = is_empty (trim (Embed.textarea_value w))
  /\ Embed.sent w' = Embed.sent w
  /\ Embed.sessionId w' = Embed.sessionId w
  /\ Embed.textarea_value w' = Embed.textarea_value w
  /\ Embed.isOpen w' = Embed.isOpen w
  /\ Embed.interface_open w' = Embed.interface_open w.
Proof.
  intros w'. unfold w', Embed.sendMessage_settled. rewrite exec_finally.
  set (t := try_catch _ _).
  assert (T : keeps embed_frame t).
  { pose proof embed_frame_refl as Rr. pose proof embed_frame_trans as Rt.
    unfold t. apply keeps_try_catch; [exact Rt | |].
    - apply keeps_bind; [exact Rt | |].
      + destruct o; [apply keeps_throw | apply keeps_throw | apply keeps_ret]; exact Rr.
      + intros r. apply keeps_bind; [exact Rt | apply embed_removeLastChild_keeps |].
        intros _. destruct (ok (status r)).
        * apply keeps_bind; [exact Rt | apply keeps_lift; exact Rr |].
          intros a. apply embed_addMessage_keeps.
        * apply embed_addMessage_keeps.
    - intros e. apply keeps_bind; [exact Rt | apply embed_removeLastChild_keeps |].
      intros _. apply embed_addMessage_keeps. }
  pose proof (T w) as F. change (snd (t w)) with (exec t w) in F.
  revert F. generalize (exec t w). intros v (T1 & T2 & T3 & T4 & T5).
  cbn. rewrite T3, orb_false_r. repeat split; assumption.
Qed.



Lemma embed_sendMessage_admitted_or_not (w : Embed.Widget) :
  exec Embed.sendMessage w = w
  \/ (Embed.isLoading w = false /\ trim (Embed.textarea_value w) <> EmptyString
      /\ exec Embed.sendMessage w = Embed.started w).
Proof.
  unfold Embed.sendMessage. run_m.
  destruct (is_empty (trim (Embed.textarea_value w))) eqn:E; [left; reflexivity |].
  destruct (Embed.isLoading w) eqn:L; [left; reflexivity |].
  right. apply is_empty_false in E. auto.
Qed.

Lemma embed_handle_requests (ev : Embed.Event) (w : Embed.Widget) :
  Embed.sessionId (Embed.handle ev w) = Embed.sessionId w
  /\ ((Embed.sent (Embed.handle ev w) = Embed.sent w
       /\ (embed_settles ev = false ->
           Embed.isLoading (Embed.handle ev w) = Embed.isLoading w
           /\ Embed.messages (Embed.handle ev w) = Embed.messages w))
      \/ (embed_settles ev = false /\ Embed.isLoading w = false
          /\ Embed.isLoading (Embed.handle ev w) = true
          /\ exists text,
               trim text <> EmptyString
               /\ Embed.sent (Embed.handle ev w) =
                  Embed.sent w ++ [POST (Embed.CONFIG_apiBase +:+ "/api/chat")
                                        (trim text) true (Embed.sessionId w)])).
Proof.
  assert (S : Embed.sessionId (exec Embed.sendMessage w) = Embed.sessionId w
              /\ ((Embed.sent (exec Embed.sendMessage w) = Embed.sent w
                   /\ Embed.isLoading (exec Embed.sendMessage w) = Embed.isLoading w
                   /\ Embed.messages (exec Embed.sendMessage w) = Embed.messages w)
                  \/ (Embed.isLoading w = false
                      /\ Embed.isLoading (exec Embed.sendMessage w) = true
                      /\ exists text,
                           trim text <> EmptyString
                           /\ Embed.sent (exec Embed.sendMessage w) =
                              Embed.sent w
                                ++ [POST (Embed.CONFIG_apiBase +:+ "/api/chat")
                                         (trim text) true (Embed.sessionId w)]))).
  { destruct (embed_sendMessage_admitted_or_not w) as [-> | (L & T & ->)].
    - split; [reflexivity |]. left. auto.
    - split; [reflexivity |]. right. split; [exact L |]. split; [reflexivity |].
      exists (Embed.textarea_value w). split; [exact T | reflexivity]. }
  destruct S as [S0 S].
  destruct ev as [| | | text | key shiftKey | o]; cbn [Embed.handle embed_settles].
  - unfold Embed.toggle. run_m. destruct (Embed.isOpen w); split; auto.
  - split; auto.
  - destruct (Embed.send_disabled w); [split; auto |]. split; [exact S0 |].
    destruct S as [(H1 & H2 & H3) | (H1 & H2 & H3)]; [left; auto | right; auto].
  - split; auto.
  - destruct (String.eqb key "Enter" && negb shiftKey); [| split; auto].
    split; [exact S0 |].
    destruct S as [(H1 & H2 & H3) | (H1 & H2 & H3)]; [left; auto | right; auto].
  - destruct (embed_settled_frame o w) as (_ & _ & H3 & H4 & _).
    split; [exact H4 |]. left. split; [exact H3 | discriminate].
Qed.

(** X15. The requests of [CAEmbedWidget].  In every state reached from
    the construction the session identifier is the one minted by the
    constructor, and every request issued is a chat request to the
    [apiBase] of [CONFIG] with [web_search_enabled] true, this session
    identifier and a message that is not empty and has no white space
    around it.  The widget never issues a health probe. *)
Theorem embed_requests (evs : list Embed.Event) (now : Z) (random36 : string) :
  let w := embed_run evs (Embed.construct now random36) in
  Embed.sessionId w = generateSessionId now random36
  /\ Forall (embed_request_ok (generateSessionId now random36)) (Embed.sent w)
  /\ Forall (fun r => is_probe r = false) (Embed.sent w).
Proof.
  intros w.
  assert (P : forall v,
             Embed.sessionId v = generateSessionId now random36
             /\ Forall (embed_request_ok (generateSessionId now random36)) (Embed.sent v) ->
             Embed.sessionId (embed_run evs v) = generateSessionId now random36
             /\ Forall (embed_request_ok (generateSessionId now random36))
                       (Embed.sent (embed_run evs v))).
  { unfold embed_run. induction evs as [| ev evs IH]; intros v H; [exact H |].
    cbn [fold_left]. apply IH. destruct H as [H1 H2].
    destruct (embed_handle_requests ev v) as [I [(H & _) | (_ & _ & _ & text & T & H)]];
      (split; [congruence |]); rewrite H; [exact H2 |].
    apply Forall_app. split; [exact H2 |]. constructor; [| constructor].
    cbn. rewrite H1. repeat split; [exact T | apply trim_idem]. }
  destruct (P (Embed.construct now random36)) as [P1 P2].
  { split; [reflexivity | constructor]. }
  fold w in P1, P2. split; [exact P1 |]. split; [exact P2 |].
  eapply Forall_impl; [exact P2 |]. intros [url | url m wse s]; cbn; [contradiction | auto].
Qed.

(** X16. One chat request at a time in [CAEmbedWidget].  While a request
    is in flight, no sequence of events without its settling issues a
    request or changes the transcript, and the widget stays loading; and
    an event that issues a request finds the widget not loading and
    leaves it loading. *)
Theorem embed_one_request_in_flight
        (evs : list Embed.Event) (ev : Embed.Event) (w : Embed.Widget) :
  (Embed.isLoading w = true ->
   Forall (fun e => embed_settles e = false) evs ->
   Embed.isLoading (embed_run evs w) = true
   /\ Embed.sent (embed_run evs w) = Embed.sent w
   /\ Embed.messages (embed_run evs w) = Embed.messages w)
  /\ (Embed.sent (Embed.handle ev w) <> Embed.sent w ->
      Embed.isLoading w = false /\ Embed.isLoading (Embed.handle ev w) = true).
Proof.
  split.
  - intros L F. revert w L. unfold embed_run.
    induction F as [| e evs He F IH]; intros w L; [auto |].
    cbn [fold_left].
    destruct (embed_handle_requests e w) as [_ [(H1 & H2) | (_ & H & _)]];
      [| congruence].
    destruct (H2 He) as [H3 H4].
    destruct (IH (Embed.handle e w)) as (I1 & I2 & I3); [congruence |].
    rewrite I1, I2, I3. auto.
  - intros H.
    destruct (embed_handle_requests ev w) as [_ [(H1 & _) | (_ & H1 & H2 & _)]];
      [contradiction | auto].
Qed.

Lemma embed_one_request_in_flight_witness :
  Embed.messages
    (embed_run [Embed.ClickSend; Embed.InputText "PAN?"; Embed.KeyDown "Enter" false;
                Embed.ClickToggle]
               (Embed.ask "What is GST?" Embed.fresh))
  = Embed.messages (Embed.ask "What is GST?" Embed.fresh).
Proof.
  refine (proj2 (proj2 (proj1 (embed_one_request_in_flight _ Embed.ClickToggle _) _ _))).
  - reflexivity.
  - repeat constructor.
Defined.






(** ** The embed script *)

(** X19. The script of the embed widget initialises the page once.  Run
    any number of times in a page where the flag is not set, it
    constructs one widget, the one of the first run, and adds one style
    sheet; in a page where the flag is set it does nothing.  Running it
    again changes nothing. *)
Theorem embed_script_once
        (now : Z) (random36 : string) (runs : list (Z * string)) (win : Window) :
  embed_script now random36 (embed_script now random36 win)
  = embed_script now random36 win
  /\ (CAChatbotLoaded win = true -> embed_scripts runs win = win)
  /\ (CAChatbotLoaded win = false ->
      embed_scripts ((now, random36) :: runs) win
      = mkWindow true (S (style_sheets win))
                 (embed_widgets win ++ [Embed.construct now random36])).
Proof.
  assert (L : forall rs v, CAChatbotLoaded v = true -> embed_scripts rs v = v).
  { unfold embed_scripts. induction rs as [| r rs IH]; intros v H; [reflexivity |].
    cbn [fold_left]. unfold embed_script at 2. rewrite H. apply IH, H. }
  split; [| split].
  - unfold embed_script. destruct (CAChatbotLoaded win) eqn:E; [rewrite E |];
      reflexivity.
  - apply L.
  - intros H. unfold embed_scripts. cbn [fold_left fst snd].
    unfold embed_script at 2. rewrite H. apply L. reflexivity.
Qed.

Lemma embed_script_once_witness :
  embed_widgets
    (embed_scripts [(1700000000000%Z, "0.4fzyo82mvyr"); (1700000000500%Z, "0.zzz")]
                   (mkWindow false 0 []))
  = [Embed.fresh].
Proof.
  rewrite (proj2 (proj2 (embed_script_once 1700000000000 "0.4fzyo82mvyr"
                           [(1700000000500%Z, "0.zzz")] (mkWindow false 0 []))) eq_refl).
  reflexivity.
Defined.

(** ** Text typed while a request is in flight *)


